(** * Visitor-tracking backend (app.py): a shallow embedding and its properties

    The Flask application of [app.py] is embedded as state-passing functions
    over an explicit [State] (the visitor table, the SQLAlchemy session, the
    mail outbox and the application log), run in an environment [Env] (the
    UTC clock, whether the database and the mail transport answer, and
    Python's [int]).  Python exceptions are results of the computation, so
    that [try]/[except] and the code that runs outside of it are told
    apart. *)

From Stdlib Require Import ZArith List String Ascii Bool Lia Permutation.
Import ListNotations.

Set Warnings "-register-all".

Local Open Scope string_scope.
Local Open Scope list_scope.
Local Open Scope Z_scope.

(* ===================================================================== *)
(** ** [datetime]: the UTC calendar of a clock reading *)
(* ===================================================================== *)

(** [datetime.now(timezone.utc)] reads the clock and converts it to the
    proleptic Gregorian calendar.  A clock reading is a number of
    microseconds since 1970-01-01T00:00:00Z; the conversion follows
    [_ord2ymd] of the [datetime] module. *)
Module Calendar.

Record datetime := mkDatetime {
  year : Z;
  month : Z;
  day : Z;
  hour : Z;
  minute : Z;
  second : Z;
  microsecond : Z
}.

Definition _DI400Y : Z := 146097.
Definition _DI100Y : Z := 36524.
Definition _DI4Y : Z := 1461.

(** Index 0 is a placeholder, months are 1-based. *)
Definition _DAYS_IN_MONTH : list Z :=
  [-1; 31; 28; 31; 30; 31; 30; 31; 31; 30; 31; 30; 31].

Definition _DAYS_BEFORE_MONTH : list Z :=
  [-1; 0; 31; 59; 90; 120; 151; 181; 212; 243; 273; 304; 334].

Definition index (l : list Z) (i : Z) : Z := nth (Z.to_nat i) l 0.

Definition b2z (b : bool) : Z := if b then 1 else 0.

(** Ordinal of a day (0001-01-01 is day 1) to (year, month, day). *)
Definition _ord2ymd (n0 : Z) : Z * Z * Z :=
  let n := n0 - 1 in
  let n400 := n / _DI400Y in
  let n := n mod _DI400Y in
  let year := n400 * 400 + 1 in
  let n100 := n / _DI100Y in
  let n := n mod _DI100Y in
  let n4 := n / _DI4Y in
  let n := n mod _DI4Y in
  let n1 := n / 365 in
  let n := n mod 365 in
  let year := year + (n100 * 100 + n4 * 4 + n1) in
  if (n1 =? 4) || (n100 =? 4) then (year - 1, 12, 31)
  else
    let leapyear := (n1 =? 3) && (negb (n4 =? 24) || (n100 =? 3)) in
    let month := Z.shiftr (n + 50) 5 in
    let preceding :=
      index _DAYS_BEFORE_MONTH month + b2z ((2 <? month) && leapyear) in
    if n <? preceding then
      let month := month - 1 in
      let preceding :=
        preceding - (index _DAYS_IN_MONTH month
                     + b2z ((month =? 2) && leapyear)) in
      (year, month, n - preceding + 1)
    else (year, month, n - preceding + 1).

(** Ordinal of 1970-01-01. *)
Definition EPOCH_ORDINAL : Z := 719163.

(** The UTC date and time of a clock reading [t] (microseconds since the
    epoch). *)
Definition utc (t : Z) : datetime :=
  let us := t mod 1000000 in
  let s := t / 1000000 in
  let days := s / 86400 in
  let rem := s mod 86400 in
  let '(y, m, d) := _ord2ymd (EPOCH_ORDINAL + days) in
  mkDatetime y m d (rem / 3600) ((rem mod 3600) / 60) (rem mod 60) us.

End Calendar.

(* ===================================================================== *)
(** ** Python values *)
(* ===================================================================== *)

(** The value of a JSON document after [json.loads] ([JNull] is Python's
    [None]; floating-point numbers do not occur in the handlers). *)
Inductive json :=
| JNull
| JBool (b : bool)
| JInt (n : Z)
| JStr (s : string)
| JArr (items : list json)
| JObj (fields : list (string * json)).

Definition of_opt_str (o : option string) : json :=
  match o with
  | Some s => JStr s
  | None => JNull
  end.

(** Python truth value of a value. *)
Definition truthy (v : json) : bool :=
  match v with
  | JNull => false
  | JBool b => b
  | JInt n => negb (n =? 0)
  | JStr s => negb (s =? "")%string
  | JArr [] => false
  | JArr (_ :: _) => true
  | JObj [] => false
  | JObj (_ :: _) => true
  end.

(** [a or b] *)
Definition py_or (a b : json) : json := if truthy a then a else b.

(** [a or b] on integers: [0] is the only false integer. *)
Definition py_or_int (a b : Z) : Z := if a =? 0 then b else a.

Fixpoint assoc {A : Type} (k : string) (l : list (string * A)) : option A :=
  match l with
  | [] => None
  | (k', v) :: l' => if (k =? k')%string then Some v else assoc k l'
  end.

(** [d.get(k, default)] on a [dict]. *)
Definition dict_get (d : list (string * json)) (k : string) (default : json)
  : json :=
  match assoc k d with
  | Some v => v
  | None => default
  end.

(** *** A converter of decimal texts

    Python's [int] is not code of the application: the handlers take the
    converter from their environment ([py_int] of [Env]).  [ascii_int] is a
    converter for examples, on the texts of at most 4300 characters made of
    ASCII decimal digits with an optional sign, single underscores between
    digits and ASCII white space around; on what it converts, [int] gives
    the same number. *)

Definition is_space (c : ascii) : bool :=
  let n := nat_of_ascii c in
  ((9 <=? n) && (n <=? 13) || (n =? 32))%nat.

Definition digit_of (c : ascii) : option Z :=
  let n := Z.of_nat (nat_of_ascii c) in
  if (48 <=? n) && (n <=? 57) then Some (n - 48) else None.

Fixpoint lstrip (s : string) : string :=
  match s with
  | EmptyString => EmptyString
  | String c s' => if is_space c then lstrip s' else s
  end.

Fixpoint rstrip (s : string) : string :=
  match s with
  | EmptyString => EmptyString
  | String c s' =>
      match rstrip s' with
      | EmptyString => if is_space c then EmptyString else String c EmptyString
      | r => String c r
      end
  end.

Definition strip (s : string) : string := rstrip (lstrip s).

(** Decimal digits, single underscores allowed between two digits. *)
Fixpoint digits (acc : Z) (after_digit : bool) (s : string) : option Z :=
  match s with
  | EmptyString => if after_digit then Some acc else None
  | String c s' =>
      match digit_of c with
      | Some d => digits (10 * acc + d) true s'
      | None =>
          if (c =? "_")%char && after_digit then digits acc false s' else None
      end
  end.

Definition ascii_int (s : string) : option Z :=
  if (4300 <? String.length s)%nat then None
  else
    match strip s with
    | String "+" r => digits 0 false r
    | String "-" r => option_map Z.opp (digits 0 false r)
    | r => digits 0 false r
    end.

(* ===================================================================== *)
(** ** Exceptions, the world and the monad of handlers *)
(* ===================================================================== *)

Inductive exn :=
| BadRequest           (* werkzeug.exceptions.BadRequest, HTTP 400 *)
| NotFound             (* werkzeug.exceptions.NotFound, HTTP 404 *)
| MethodNotAllowed     (* werkzeug.exceptions.MethodNotAllowed, HTTP 405 *)
| AttributeError
| TypeError
| IntegrityError       (* sqlalchemy.exc: a constraint of the table fails *)
| OperationalError     (* sqlalchemy.exc: the database is not reachable *)
| SMTPException        (* the mail transport fails *)
| ValueError
| OverflowError        (* sqlite3: an integer does not fit 64 bits *)
| BadHeaderError.      (* flask_mail: a line break in a header *)

(** A piece of a formatted string: literal text of the template or an
    interpolated value. *)
Inductive piece :=
| Lit (s : string)
| Val (v : json)
| Err (e : exn)
| Stamp (t : Calendar.datetime).

Definition fstring := list piece.

(** [class Visitor(db.Model)].  [id] and [timestamp] are [None] on an object
    until it is inserted; [ip_address] is [None] when the transport gives no
    address. *)
Record Visitor := mkVisitor {
  id : option Z;
  ip_address : option string;
  user_agent : option string;
  timestamp : option Calendar.datetime;
  visit_month : Z;
  visit_year : Z
}.

(** [flask_mail.Message] *)
Record Message := mkMessage {
  subject : fstring;
  recipients : list (option string);
  body : fstring
}.

Inductive level := INFO | WARNING | ERROR.

(** What is read from [os.environ] when the module is loaded. *)
Record Config := mkConfig {
  ADMIN_EMAIL : option string;
  FRONTEND_URL : option string;
  MAIL_SERVER : string;
  MAIL_PORT : Z;
  MAIL_USERNAME : option string
}.

(** What a request does not control: the clock, the two external services
    and the interpreter.  [clock n] is the [n]-th reading of the clock since
    the process started, in microseconds since the epoch; [db_up] says
    whether the database answers the statements of the request, [mail_up]
    whether the mail transport can be reached; [py_int] is Python's [int] on
    a text, [None] when it raises [ValueError]. *)
Record Env := mkEnv {
  clock : nat -> Z;
  db_up : bool;
  mail_up : bool;
  py_int : string -> option Z
}.

Record State := mkState {
  table : list Visitor;         (* committed rows of the visitor table *)
  session : list Visitor;       (* db.session: objects added, not flushed *)
  outbox : list Message;        (* mail handed to the transport *)
  logger : list (level * fstring);
  reads : nat                   (* how often the clock was read *)
}.

Definition set_table (t : list Visitor) (s : State) : State :=
  mkState t (session s) (outbox s) (logger s) (reads s).

Definition set_session (p : list Visitor) (s : State) : State :=
  mkState (table s) p (outbox s) (logger s) (reads s).

Definition set_outbox (o : list Message) (s : State) : State :=
  mkState (table s) (session s) o (logger s) (reads s).

Definition set_logger (l : list (level * fstring)) (s : State) : State :=
  mkState (table s) (session s) (outbox s) l (reads s).

Definition set_reads (n : nat) (s : State) : State :=
  mkState (table s) (session s) (outbox s) (logger s) n.

Inductive result (A : Type) :=
| Ret (a : A)
| Raise (e : exn).

Arguments Ret {A} a.
Arguments Raise {A} e.

Definition M (A : Type) : Type := Env -> State -> result A * State.

Definition ret {A : Type} (a : A) : M A := fun _ s => (Ret a, s).

Definition raise {A : Type} (e : exn) : M A := fun _ s => (Raise e, s).

Definition bind {A B : Type} (m : M A) (k : A -> M B) : M B :=
  fun env s =>
    match m env s with
    | (Ret a, s') => k a env s'
    | (Raise e, s') => (Raise e, s')
    end.

(** [try: body  except Exception as e: handler e] *)
Definition try_except {A : Type} (body : M A) (handler : exn -> M A) : M A :=
  fun env s =>
    match body env s with
    | (Ret a, s') => (Ret a, s')
    | (Raise e, s') => handler e env s'
    end.

Declare Scope py_scope.
Delimit Scope py_scope with py.

Notation "x <- c1 ;; c2" := (bind c1 (fun x => c2))
  (at level 100, c1 at next level, right associativity) : py_scope.
Notation "c1 ;; c2" := (bind c1 (fun _ => c2))
  (at level 100, right associativity) : py_scope.
Notation "'try' b 'except' e '=>' h" := (try_except b (fun e => h))
  (at level 100, e name, right associativity) : py_scope.

Local Open Scope py_scope.

Definition get_env : M Env := fun env s => (Ret env, s).

Definition get_state : M State := fun _ s => (Ret s, s).

Definition modify (f : State -> State) : M unit := fun _ s => (Ret tt, f s).

(** [datetime.now(timezone.utc)] *)
Definition datetime_now : M Calendar.datetime :=
  fun env s =>
    (Ret (Calendar.utc (clock env (reads s))), set_reads (S (reads s)) s).

(** [app.logger.<level>(text)] *)
Definition log (l : level) (text : fstring) : M unit :=
  modify (fun s => set_logger (logger s ++ [(l, text)]) s).

(** [x.get(k, default)]: only a [dict] has the attribute [get]. *)
Definition py_get (x : json) (k : string) (default : json) : M json :=
  match x with
  | JObj d => ret (dict_get d k default)
  | _ => raise AttributeError
  end.

(* ===================================================================== *)
(** ** Requests and responses *)
(* ===================================================================== *)

Inductive Method := GET | HEAD | POST | PUT | DELETE | PATCH | OPTIONS.

Definition Method_eqb (a b : Method) : bool :=
  match a, b with
  | GET, GET | HEAD, HEAD | POST, POST | PUT, PUT
  | DELETE, DELETE | PATCH, PATCH | OPTIONS, OPTIONS => true
  | _, _ => false
  end.

Module Request.

(** [flask.request].  [json] is what [json.loads] makes of the body, [None]
    when the body is not a JSON document. *)
Record t := mk {
  method : Method;
  path : string;
  remote_addr : option string;
  headers : list (string * string);
  args : list (string * string);
  is_json : bool;
  json : option json
}.

End Request.

Module Response.

Inductive content :=
| Json (j : json)                 (* made by [jsonify] *)
| ErrorPage (code : Z)            (* the page of an [HTTPException] *)
| Empty.

Record t := mk {
  status : Z;
  body : content;
  headers : list (string * string)
}.

(** [response.headers.add(name, value)] *)
Definition headers_add (name value : string) (r : t) : t :=
  mk (status r) (body r) (headers r ++ [(name, value)]).

End Response.

Definition lower (c : ascii) : ascii :=
  let n := nat_of_ascii c in
  if ((65 <=? n) && (n <=? 90))%nat then ascii_of_nat (n + 32) else c.

Fixpoint lower_str (s : string) : string :=
  match s with
  | EmptyString => EmptyString
  | String c s' => String (lower c) (lower_str s')
  end.

(** The names of headers are compared without regard to case. *)
Fixpoint header_lookup (name : string) (l : list (string * string))
  : option string :=
  match l with
  | [] => None
  | (k, v) :: l' =>
      if (lower_str k =? lower_str name)%string then Some v
      else header_lookup name l'
  end.

(** [request.headers.get(name)] *)
Definition headers_get (request : Request.t) (name : string) : option string :=
  header_lookup name (Request.headers request).

(** [request.args.get(key, default=default, type=int)]: the default when the
    key is absent and when the conversion raises [ValueError]. *)
Definition args_get_int (env : Env) (request : Request.t) (key : string)
    (default : Z) : Z :=
  match assoc key (Request.args request) with
  | None => default
  | Some rv =>
      match py_int env rv with
      | Some n => n
      | None => default
      end
  end.

(** [request.json]: a body that is not JSON is a bad request. *)
Definition request_json (request : Request.t) : M json :=
  match Request.json request with
  | Some j => ret j
  | None => raise BadRequest
  end.

(** [request.get_json(silent=True)]: [None] when the request does not declare
    JSON and when the body does not parse. *)
Definition get_json_silent (request : Request.t) : json :=
  if Request.is_json request then
    match Request.json request with
    | Some j => j
    | None => JNull
    end
  else JNull.

(** [jsonify(payload)] *)
Definition jsonify (payload : json) : Response.t :=
  Response.mk 200 (Response.Json payload)
    [("Content-Type", "application/json")].

(** What a view function gives to Flask: nothing ([None]), a pair
    [response, status], or a response. *)
Inductive rv :=
| RvNone
| RvTuple (r : Response.t) (status : Z)
| RvResponse (r : Response.t).

(* ===================================================================== *)
(** ** The event store: table, session and query *)
(* ===================================================================== *)

Definition id_of (v : Visitor) : Z :=
  match id v with
  | Some n => n
  | None => 0
  end.

Definition max_id (t : list Visitor) : Z :=
  fold_right (fun v m => Z.max (id_of v) m) 0 t.

(** The row id SQLite gives to the next row of an INTEGER PRIMARY KEY. *)
Definition next_id (t : list Visitor) : Z := max_id t + 1.

(** Every statement needs the database. *)
Definition connect : M unit :=
  env <- get_env ;;
  if db_up env then ret tt else raise OperationalError.

(** INSERT of one object: the column default of [timestamp] reads the clock
    when the object has none, [ip_address] is NOT NULL, the key is
    assigned by the table. *)
Definition insert (v : Visitor) : M unit :=
  connect ;;
  ts <- match timestamp v with
        | Some t => ret t
        | None => datetime_now
        end ;;
  match ip_address v with
  | None => raise IntegrityError
  | Some _ =>
      modify (fun s =>
        set_table
          (table s ++ [mkVisitor (Some (next_id (table s))) (ip_address v)
                         (user_agent v) (Some ts)
                         (visit_month v) (visit_year v)]) s)
  end.

Fixpoint flush (pending : list Visitor) : M unit :=
  match pending with
  | [] => ret tt
  | v :: rest => insert v ;; flush rest
  end.

(** [db.session.add(obj)] *)
Definition session_add (v : Visitor) : M unit :=
  modify (fun s => set_session (session s ++ [v]) s).

(** [db.session.commit()]: the pending objects are inserted in one
    transaction; when a statement fails the transaction is undone and the
    exception goes to the caller. *)
Definition session_commit : M unit :=
  s0 <- get_state ;;
  try (flush (session s0) ;; modify (set_session []))
  except e => (modify (set_table (table s0)) ;; raise e).

(** [db.session.rollback()] *)
Definition session_rollback : M unit := modify (set_session []).

Definition visit_in_period (month year : Z) (v : Visitor) : bool :=
  (visit_month v =? month) && (visit_year v =? year).

(** The non-NULL values of a column of optional strings. *)
Fixpoint not_null (l : list (option string)) : list string :=
  match l with
  | [] => []
  | Some a :: l' => a :: not_null l'
  | None :: l' => not_null l'
  end.

(** SELECT count(DISTINCT ip_address) FROM visitor
    WHERE visit_month = month AND visit_year = year *)
Definition count_distinct_visitors (t : list Visitor) (month year : Z) : Z :=
  Z.of_nat
    (List.length
       (nodup string_dec
          (not_null (map ip_address (filter (visit_in_period month year) t))))).

(** An integer that SQLite stores: a signed integer of 64 bits. *)
Definition in_int64 (n : Z) : bool :=
  (- 2 ^ 63 <=? n) && (n <? 2 ^ 63).

(** A parameter of a statement is bound as an INTEGER; [sqlite3] raises
    [OverflowError] on an integer that does not fit. *)
Definition bind_integer (n : Z) : M Z :=
  if in_int64 n then ret n else raise OverflowError.

Definition query_count_distinct (month year : Z) : M Z :=
  connect ;;
  month <- bind_integer month ;;
  year <- bind_integer year ;;
  s <- get_state ;;
  ret (count_distinct_visitors (table s) month year).

(** A carriage return or a line feed in a text. *)
Fixpoint has_line_break (s : string) : bool :=
  match s with
  | EmptyString => false
  | String c s' =>
      (nat_of_ascii c =? 10)%nat || (nat_of_ascii c =? 13)%nat
      || has_line_break s'
  end.

(** A line break in the text of a piece: in the template or in an
    interpolated string (the text of any other value has none). *)
Definition piece_line_break (p : piece) : bool :=
  match p with
  | Lit s => has_line_break s
  | Val (JStr s) => has_line_break s
  | _ => false
  end.

Definition is_None {A : Type} (o : option A) : bool :=
  match o with
  | None => true
  | Some _ => false
  end.

(** What Flask-Mail refuses once the transport is reached: a line break in
    the subject ([BadHeaderError]; a subject folded over several lines is
    taken as refused too) and a recipient that is [None] ([TypeError]). *)
Definition refused (msg : Message) : option exn :=
  if existsb piece_line_break (subject msg) then Some BadHeaderError
  else if existsb is_None (recipients msg) then Some TypeError
  else None.

(** [mail.send(msg)]: the transport is reached first, then the message is
    checked and handed over. *)
Definition mail_send (msg : Message) : M unit :=
  env <- get_env ;;
  if mail_up env then
    match refused msg with
    | Some e => raise e
    | None => modify (fun s => set_outbox (outbox s ++ [msg]) s)
    end
  else raise SMTPException.

(* ===================================================================== *)
(** ** The application *)
(* ===================================================================== *)

Section App.

Variable cfg : Config.

Definition mail_config_line : fstring :=
  [Lit "Current Mail Config: SERVER="; Val (JStr (MAIL_SERVER cfg));
   Lit ", PORT="; Val (JInt (MAIL_PORT cfg));
   Lit ", USER=";
   Val (JBool (match MAIL_USERNAME cfg with Some _ => true | None => false end))].

Definition send_visitor_notification_email
    (ip_address user_agent : option string) (page_url : json) : M unit :=
  if negb (truthy (of_opt_str (ADMIN_EMAIL cfg)))
     || negb (truthy (of_opt_str (MAIL_USERNAME cfg)))
  then
    log WARNING
      [Lit "Admin email or mail username not configured. Skipping email."]
  else
    try (
      let subject := [Lit "🎉 New Website Visitor Alert (via Gmail)!"] in
      now <- datetime_now ;;
      let body :=
        [Lit "A new visitor just landed on your site! Details: - IP Address: ";
         Val (of_opt_str ip_address);
         Lit " - User Agent: "; Val (py_or (of_opt_str user_agent) (JStr "N/A"));
         Lit " - Page URL: "; Val (py_or page_url (JStr "N/A"));
         Lit " - Timestamp: "; Stamp now;
         Lit " Notification sent via Flask app using Gmail."] in
      let msg := mkMessage subject [ADMIN_EMAIL cfg] body in
      mail_send msg ;;
      log INFO [Lit "Visitor notification email sent to ";
                Val (of_opt_str (ADMIN_EMAIL cfg)); Lit " via Gmail."]
    ) except e => (
      log ERROR [Lit "Error sending visitor email via Gmail: "; Err e] ;;
      log ERROR mail_config_line
    ).

(** POST /api/track-visit *)
Definition track_visit (request : Request.t) : M rv :=
  let ip_address := Request.remote_addr request in
  let user_agent := headers_get request "User-Agent" in
  page_url <- (if Request.is_json request
               then (j <- request_json request ;; py_get j "pageURL" JNull)
               else ret JNull) ;;
  current_time <- datetime_now ;;
  let month := Calendar.month current_time in
  let year := Calendar.year current_time in
  try (
    let new_visitor := mkVisitor None ip_address user_agent None month year in
    session_add new_visitor ;;
    session_commit ;;
    (* send_visitor_notification_email ip_address user_agent page_url *)
    ret (RvTuple (jsonify (JObj [("message", JStr "Visit tracked successfully")]))
           201)
  ) except e => (
    session_rollback ;;
    log ERROR [Lit "Error tracking visit: "; Err e] ;;
    ret (RvTuple (jsonify (JObj [("error", JStr "Could not track visit")])) 500)
  ).

(** GET /api/monthly-visitors *)
Definition get_monthly_visitors (request : Request.t) : M rv :=
  env <- get_env ;;
  current_time <- datetime_now ;;
  let month := args_get_int env request "month" (Calendar.month current_time) in
  let year := args_get_int env request "year" (Calendar.year current_time) in
  try (
    unique_visitor_count <- query_count_distinct month year ;;
    ret (RvTuple
           (jsonify
              (JObj [("month", JInt month);
                     ("year", JInt year);
                     ("unique_visitors",
                      JInt (py_or_int (unique_visitor_count + 2) 2))]))
           200)
  ) except e => (
    log ERROR [Lit "Error getting monthly visitor count: "; Err e] ;;
    ret (RvTuple
           (jsonify (JObj [("error", JStr "Could not retrieve visitor count")]))
           500)
  ).

(** POST /api/notify-click.  The function ends without a [return]. *)
Definition notify_click (request : Request.t) : M rv :=
  let data := py_or (get_json_silent request) (JObj []) in
  kind <- py_get data "link_kind" (JStr "unknown link") ;;
  page <- py_get data "page" (JStr "unknown page") ;;
  let ua :=
    match headers_get request "User-Agent" with
    | Some u => u
    | None => "unknown UA"
    end in
  (try (
     let subject := [Lit "🎉  [Portfolio] "; Val kind; Lit " clicked"] in
     let body := [Val kind; Lit " was clicked! page: "; Val page;
                  Lit " ua: "; Val (JStr ua)] in
     let msg := mkMessage subject [ADMIN_EMAIL cfg] body in
     mail_send msg
   ) except e => (
     log ERROR [Lit "Error sending visitor email via Gmail: "; Err e] ;;
     log ERROR mail_config_line
   )) ;;
  ret RvNone.

(** [@app.after_request] *)
Definition after_request (response : Response.t) : Response.t :=
  let frontend_url :=
    match FRONTEND_URL cfg with
    | Some u => u
    | None => "*"
    end in
  let response :=
    Response.headers_add "Access-Control-Allow-Origin" frontend_url response in
  let response :=
    Response.headers_add "Access-Control-Allow-Headers"
      "Content-Type,Authorization" response in
  let response :=
    Response.headers_add "Access-Control-Allow-Methods"
      "GET,PUT,POST,DELETE,OPTIONS" response in
  let response :=
    Response.headers_add "Access-Control-Allow-Credentials" "true" response in
  response.

(** *** Flask's request dispatch *)

Inductive endpoint := ep_track_visit | ep_get_monthly_visitors | ep_notify_click.

(** The rules registered by [@app.route] and [@app.post]; a rule for GET
    also answers HEAD, every rule answers OPTIONS. *)
Definition url_map : list (string * (list Method * endpoint)) :=
  [("/api/track-visit", ([POST; OPTIONS], ep_track_visit));
   ("/api/monthly-visitors", ([GET; HEAD; OPTIONS], ep_get_monthly_visitors));
   ("/api/notify-click", ([POST; OPTIONS], ep_notify_click))].

Definition view_function (ep : endpoint) : Request.t -> M rv :=
  match ep with
  | ep_track_visit => track_visit
  | ep_get_monthly_visitors => get_monthly_visitors
  | ep_notify_click => notify_click
  end.

Definition http_code (e : exn) : option Z :=
  match e with
  | BadRequest => Some 400
  | NotFound => Some 404
  | MethodNotAllowed => Some 405
  | _ => None
  end.

Definition error_response (code : Z) : Response.t :=
  Response.mk code (Response.ErrorPage code)
    [("Content-Type", "text/html; charset=utf-8")].

(** The rule of [url_map] for the path of the request, the check of the
    method and the call of the view.  Paths are matched as werkzeug matches
    a path without repeated slashes (a path with repeated slashes is
    redirected by it); the route Flask adds for files under /static/ is
    left out. *)
Definition dispatch_request (request : Request.t) : M rv :=
  match assoc (Request.path request) url_map with
  | None => raise NotFound
  | Some (methods, ep) =>
      if existsb (Method_eqb (Request.method request)) methods then
        if Method_eqb (Request.method request) OPTIONS
        then ret (RvResponse (Response.mk 200 Response.Empty []))
        else view_function ep request
      else raise MethodNotAllowed
  end.

(** A view that returns [None] is a [TypeError]; the status of a pair
    replaces the status of its response. *)
Definition make_response (r : rv) : M Response.t :=
  match r with
  | RvNone => raise TypeError
  | RvTuple resp status =>
      ret (Response.mk status (Response.body resp) (Response.headers resp))
  | RvResponse resp => ret resp
  end.

Definition handle_user_exception (e : exn) : M rv :=
  match http_code e with
  | Some code => ret (RvResponse (error_response code))
  | None => raise e
  end.

Definition finalize_request (r : rv) : M Response.t :=
  response <- make_response r ;;
  ret (after_request response).

Definition full_dispatch_request (request : Request.t) : M Response.t :=
  r <- (try dispatch_request request except e => handle_user_exception e) ;;
  finalize_request r.

(** An exception that is no [HTTPException] is logged and answered by the
    500 page. *)
Definition handle_exception (e : exn) (s : State) : Response.t * State :=
  (after_request (error_response 500),
   set_logger (logger s ++ [(ERROR, [Lit "Exception on request: "; Err e])]) s).

(** One request: a fresh session for the request's context, the dispatch,
    and the removal of the session when the context is torn down. *)
Definition wsgi_app (env : Env) (request : Request.t) (s : State)
  : Response.t * State :=
  let '(response, s') :=
    match full_dispatch_request request env (set_session [] s) with
    | (Ret response, s') => (response, s')
    | (Raise e, s') => handle_exception e s'
    end in
  (response, set_session [] s').

(** The states the application reaches from [s0]. *)
Inductive reachable (s0 : State) : State -> Prop :=
| reachable_start : reachable s0 s0
| reachable_request env request s :
    reachable s0 s -> reachable s0 (snd (wsgi_app env request s)).

(** *** The check of header values

    [response.headers.add] refuses a value with a line break
    ([ValueError]).  [after_request] and [wsgi_app] above are the
    post-processing step and the application for settings whose
    [FRONTEND_URL] has no line break; [after_request_checked] is the step
    for every setting and [serve] the application built on it.  When the
    step raises, Flask answers with the 500 page; the step raises on that
    page too, which is logged, and the page goes out as it is. *)

Definition headers_add_checked (name value : string) (response : Response.t)
  : M Response.t :=
  if has_line_break value then raise ValueError
  else ret (Response.headers_add name value response).

Definition after_request_checked (response : Response.t) : M Response.t :=
  let frontend_url :=
    match FRONTEND_URL cfg with
    | Some u => u
    | None => "*"
    end in
  response <- headers_add_checked "Access-Control-Allow-Origin" frontend_url
                response ;;
  response <- headers_add_checked "Access-Control-Allow-Headers"
                "Content-Type,Authorization" response ;;
  response <- headers_add_checked "Access-Control-Allow-Methods"
                "GET,PUT,POST,DELETE,OPTIONS" response ;;
  response <- headers_add_checked "Access-Control-Allow-Credentials" "true"
                response ;;
  ret response.

Definition finalize_request_checked (from_error_handler : bool) (r : rv)
  : M Response.t :=
  response <- make_response r ;;
  try after_request_checked response
  except e =>
    if from_error_handler then
      log ERROR
        [Lit "Request finalizing failed with an error while handling an error: ";
         Err e] ;;
      ret response
    else raise e.

Definition full_dispatch_request_checked (request : Request.t)
  : M Response.t :=
  r <- (try dispatch_request request except e => handle_user_exception e) ;;
  finalize_request_checked false r.

Definition handle_exception_checked (e : exn) : M Response.t :=
  log ERROR [Lit "Exception on request: "; Err e] ;;
  finalize_request_checked true (RvResponse (error_response 500)).

(** One request, as [wsgi_app], with the checked step.  The last case is
    the answer of the server when the application itself raises, which
    [handle_exception_checked] does not. *)
Definition serve (env : Env) (request : Request.t) (s : State)
  : Response.t * State :=
  match
    (try full_dispatch_request_checked request
     except e => handle_exception_checked e) env (set_session [] s)
  with
  | (Ret response, s') => (response, set_session [] s')
  | (Raise _, s') => (error_response 500, set_session [] s')
  end.

End App.

(** The state after [db.create_all()] on a new database. *)
Definition initial_state : State := mkState [] [] [] [] 0.

(* ===================================================================== *)
(** ** Vocabulary of the properties *)
(* ===================================================================== *)

(** The response Flask makes of the pair [jsonify(payload), status]. *)
Definition json_response (payload : json) (status : Z) : Response.t :=
  Response.mk status (Response.Json payload)
    [("Content-Type", "application/json")].

(** What [wsgi_app] makes of the outcome of a view function. *)
Definition conclude (cfg : Config) (out : result rv * State)
  : Response.t * State :=
  let '(response, s') :=
    match out with
    | (Ret (RvTuple r status), s') =>
        (after_request cfg
           (Response.mk status (Response.body r) (Response.headers r)), s')
    | (Ret (RvResponse r), s') => (after_request cfg r, s')
    | (Ret RvNone, s') => handle_exception cfg TypeError s'
    | (Raise e, s') =>
        match http_code e with
        | Some code => (after_request cfg (error_response code), s')
        | None => handle_exception cfg e s'
        end
    end in
  (response, set_session [] s').

(** The four headers of [after_request]. *)
Definition cors_headers (cfg : Config) : list (string * string) :=
  [("Access-Control-Allow-Origin",
    match FRONTEND_URL cfg with Some u => u | None => "*" end);
   ("Access-Control-Allow-Headers", "Content-Type,Authorization");
   ("Access-Control-Allow-Methods", "GET,PUT,POST,DELETE,OPTIONS");
   ("Access-Control-Allow-Credentials", "true")].

(** The body of a track-visit request lets the handler reach its [try]
    block: the request does not declare JSON, or its body is a JSON
    object. *)
Definition reaches_insert (request : Request.t) : Prop :=
  Request.is_json request = false
  \/ exists d, Request.json request = Some (JObj d).


(** The row [track_visit] writes in state [s]: the period fields come from
    the handler's reading of the clock, the timestamp from the next one. *)
Definition new_row (env : Env) (request : Request.t) (s : State) : Visitor :=
  let current_time := Calendar.utc (clock env (reads s)) in
  mkVisitor (Some (next_id (table s))) (Request.remote_addr request)
    (headers_get request "User-Agent")
    (Some (Calendar.utc (clock env (S (reads s)))))
    (Calendar.month current_time) (Calendar.year current_time).

(** A query parameter is absent or is not the text of an integer. *)
Definition absent_or_unparsable (env : Env) (request : Request.t)
    (key : string) : Prop :=
  forall v, assoc key (Request.args request) = Some v -> py_int env v = None.

(** Two requests that differ in their body only. *)
Definition same_but_body (r1 r2 : Request.t) : Prop :=
  Request.method r1 = Request.method r2
  /\ Request.path r1 = Request.path r2
  /\ Request.remote_addr r1 = Request.remote_addr r2
  /\ Request.headers r1 = Request.headers r2
  /\ Request.args r1 = Request.args r2.


Definition track_ok : json := JObj [("message", JStr "Visit tracked successfully")].

Definition track_failed : json := JObj [("error", JStr "Could not track visit")].

Definition monthly_payload (month year unique_visitors : Z) : json :=
  JObj [("month", JInt month); ("year", JInt year);
        ("unique_visitors", JInt unique_visitors)].

(** *** Sample inputs *)
Module Sample.

Definition cfg : Config :=
  mkConfig (Some "admin@example.org") None "smtp.gmail.com" 587
    (Some "owner@example.org").

(** Settings whose [FRONTEND_URL] has a line feed in it. *)
Definition cfg_line_break : Config :=
  mkConfig (Some "admin@example.org")
    (Some (String.append "https://app.example"
             (String (ascii_of_nat 10) "X-Injected: 1")))
    "smtp.gmail.com" 587 (Some "owner@example.org").

(** 2024-03-05T12:00:00Z, one second between two readings. *)
Definition march_clock (n : nat) : Z :=
  1709640000000000 + Z.of_nat n * 1000000.

(** The last microsecond of January 2024, two microseconds between two
    readings. *)
Definition rollover_clock (n : nat) : Z :=
  1706745599999999 + Z.of_nat n * 2.

Definition env_ok : Env := mkEnv march_clock true true ascii_int.

Definition env_down : Env := mkEnv march_clock false false ascii_int.

Definition env_rollover : Env := mkEnv rollover_clock true true ascii_int.

Definition post (path : string) (body : option json) : Request.t :=
  Request.mk POST path (Some "203.0.113.7") [("User-Agent", "curl/8.5")] []
    true body.

Definition get (path : string) (args : list (string * string)) : Request.t :=
  Request.mk GET path (Some "203.0.113.7") [("User-Agent", "curl/8.5")] args
    false None.

Definition visit : Request.t :=
  post "/api/track-visit" (Some (JObj [("pageURL", JStr "/about")])).

Definition visit_no_body : Request.t :=
  Request.mk POST "/api/track-visit" (Some "203.0.113.7")
    [("User-Agent", "curl/8.5")] [] false None.


Definition click : Request.t := post "/api/notify-click" (Some (JObj [])).

Definition row (n : Z) (ip : string) (month year : Z) : Visitor :=
  mkVisitor (Some n) (Some ip) None
    (Some (Calendar.mkDatetime year month 1 0 0 0 0)) month year.

(** Three visits of March 2024 from two addresses, one of February. *)
Definition visited : State :=
  mkState [row 1 "203.0.113.7" 3 2024; row 2 "198.51.100.2" 3 2024;
           row 3 "203.0.113.7" 3 2024; row 4 "192.0.2.9" 2 2024]
    [] [] [] 0.

End Sample.

(* ===================================================================== *)
(** ** The settings read when the module is loaded *)
(* ===================================================================== *)

Module Settings.

(** [os.environ] *)
Definition environ := list (string * string).

(** [os.environ.get(key)] *)
Definition get (e : environ) (key : string) : option string := assoc key e.

(** [os.environ.get(key, default)] *)
Definition get_default (e : environ) (key default : string) : string :=
  match assoc key e with
  | Some v => v
  | None => default
  end.

(** [value.lower() == 'true'] *)
Definition is_true (value : string) : bool := (lower_str value =? "true")%string.

(** [app.config] after the configuration block, and [ADMIN_EMAIL]. *)
Record t := mk {
  SECRET_KEY : string;
  SQLALCHEMY_DATABASE_URI : string;
  SQLALCHEMY_TRACK_MODIFICATIONS : bool;
  MAIL_SERVER : string;
  MAIL_PORT : Z;
  MAIL_USE_TLS : bool;
  MAIL_USE_SSL : bool;
  MAIL_USERNAME : option string;
  MAIL_PASSWORD : option string;
  MAIL_DEFAULT_SENDER : option string;
  MAIL_SUPPRESS_SEND : bool;
  ADMIN_EMAIL : option string
}.

(** [int(os.environ.get('MAIL_PORT', 587))]: the text of the variable is
    converted, the default is an integer already. *)
Definition mail_port (int : string -> option Z) (e : environ) : option Z :=
  match assoc "MAIL_PORT" e with
  | Some v => int v
  | None => Some 587
  end.

(** The configuration block of the module, [int] being Python's [int] on a
    text; [None] when [int] raises [ValueError] and the module is not
    loaded. *)
Definition load (int : string -> option Z) (e : environ) : option t :=
  let secret_key := get_default e "SECRET_KEY" "a_very_secret_key_for_dev_gmail" in
  let database_uri := get_default e "DATABASE_URL" "sqlite:///instance/visitors.db" in
  let mail_server := get_default e "MAIL_SERVER" "smtp.gmail.com" in
  match mail_port int e with
  | None => None
  | Some port =>
      let use_tls := is_true (get_default e "MAIL_USE_TLS" "True") in
      let use_ssl := is_true (get_default e "MAIL_USE_SSL" "False") in
      let username := get e "MAIL_USERNAME" in
      let password := get e "MAIL_PASSWORD" in
      let default_sender :=
        match assoc "MAIL_DEFAULT_SENDER" e with
        | Some v => Some v
        | None => username
        end in
      Some (mk secret_key database_uri false mail_server port use_tls use_ssl
              username password default_sender false (get e "ADMIN_EMAIL"))
  end.

(** What the handlers use of the settings; [FRONTEND_URL] is read from the
    environment by [after_request]. *)
Definition config (e : environ) (c : t) : Config :=
  mkConfig (ADMIN_EMAIL c) (get e "FRONTEND_URL") (MAIL_SERVER c) (MAIL_PORT c)
    (MAIL_USERNAME c).

End Settings.

(* ===================================================================== *)
(** ** More vocabulary *)
(* ===================================================================== *)

(** The addresses of the rows of a period, as the query sees them. *)
Definition period_addresses (t : list Visitor) (month year : Z) : list string :=
  not_null (map ip_address (filter (visit_in_period month year) t)).

(** An address has a row in the period. *)
Definition seen (t : list Visitor) (month year : Z) (a : string) : bool :=
  if in_dec string_dec a (period_addresses t month year) then true else false.

(** What a new row adds to the count of a period. *)
Definition count_gain (t : list Visitor) (month year : Z) (v : Visitor) : Z :=
  if visit_in_period month year v then
    match ip_address v with
    | Some a => if seen t month year a then 0 else 1
    | None => 0
    end
  else 0.

(** The message [notify_click] hands to the transport. *)
Definition click_message (cfg : Config) (kind page : json) (ua : string)
  : Message :=
  mkMessage [Lit "🎉  [Portfolio] "; Val kind; Lit " clicked"]
    [ADMIN_EMAIL cfg]
    [Val kind; Lit " was clicked! page: "; Val page; Lit " ua: ";
     Val (JStr ua)].

(** The two lines [notify_click] and [send_visitor_notification_email] log
    when the transport fails. *)
Definition delivery_failure_log (cfg : Config) : list (level * fstring) :=
  [(ERROR, [Lit "Error sending visitor email via Gmail: "; Err SMTPException]);
   (ERROR, mail_config_line cfg)].

(** The mail settings [send_visitor_notification_email] asks for. *)
Definition mail_configured (cfg : Config) : bool :=
  truthy (of_opt_str (ADMIN_EMAIL cfg))
  && truthy (of_opt_str (MAIL_USERNAME cfg)).

(** The rows of a table have the keys 1, 2, ... in the order of their
    insertion, an address and a timestamp. *)
Definition keys_in_sequence (t : list Visitor) : Prop :=
  map id t = map (fun n => Some (Z.of_nat n)) (seq 1 (List.length t)).

Definition row_complete (v : Visitor) : Prop :=
  ip_address v <> None /\ timestamp v <> None /\ 1 <= visit_month v <= 12.

(** The value the handler takes for a query parameter: the number of its
    text when [int] converts it, the default when the parameter is absent
    or [int] raises. *)
Definition resolves (env : Env) (request : Request.t) (key : string)
    (default n : Z) : Prop :=
  (exists v, assoc key (Request.args request) = Some v
             /\ py_int env v = Some n)
  \/ (absent_or_unparsable env request key /\ n = default).

(** [l] lists, each once, the addresses that have a row in the period. *)
Definition distinct_addresses (t : list Visitor) (month year : Z)
    (l : list string) : Prop :=
  NoDup l
  /\ forall a, In a l <->
               exists v, In v t /\ visit_month v = month
                         /\ visit_year v = year /\ ip_address v = Some a.


(** The settings whose [FRONTEND_URL] is accepted as the value of a
    header. *)
Definition header_safe (cfg : Config) : bool :=
  negb (has_line_break
          (match FRONTEND_URL cfg with Some u => u | None => "*" end)).



(** The (path, method) pairs that reach a view. *)
Definition routed (request : Request.t) : bool :=
  match assoc (Request.path request) url_map with
  | Some (methods, _) =>
      existsb (Method_eqb (Request.method request)) methods
      && negb (Method_eqb (Request.method request) OPTIONS)
  | None => false
  end.

Ltac py_unfold :=
  cbv [bind ret raise try_except get_env get_state modify datetime_now log
       py_get connect insert flush session_add session_commit session_rollback
       query_count_distinct bind_integer mail_send request_json
       set_table set_session set_outbox set_logger set_reads
       table session outbox logger reads].

(* ===================================================================== *)
(** ** The calendar *)
(* ===================================================================== *)

Module CalendarFacts.
Import Calendar.

Lemma shiftr5_range n : 0 <= n < 365 -> 1 <= Z.shiftr (n + 50) 5 <= 12.
Proof.
  intros Hn. rewrite Z.shiftr_div_pow2 by lia.
  change (2 ^ 5) with 32.
  split.
  - apply Z.div_le_lower_bound; lia.
  - apply Z.lt_succ_r, Z.div_lt_upper_bound; lia.
Qed.

(** The month of a day is a month of the calendar. *)
Lemma _ord2ymd_month n : 1 <= snd (fst (_ord2ymd n)) <= 12.
Proof.
  unfold _ord2ymd.
  set (d := (((n - 1) mod _DI400Y) mod _DI100Y) mod _DI4Y mod 365).
  assert (Hd : 0 <= d < 365) by (subst d; apply Z.mod_pos_bound; lia).
  destruct (_ || _); [simpl; lia|].
  set (leap := (_ && _)%bool).
  pose proof (shiftr5_range d Hd) as Hm.
  set (m := Z.shiftr (d + 50) 5) in *.
  destruct (d <? _) eqn:Hlt; simpl; [|lia].
  assert (m <> 1); [|lia].
  intros ->. change (index _DAYS_BEFORE_MONTH 1) with 0 in Hlt.
  simpl in Hlt. apply Z.ltb_lt in Hlt. lia.
Qed.

Lemma utc_month t : 1 <= month (utc t) <= 12.
Proof.
  unfold utc.
  pose proof (_ord2ymd_month (EPOCH_ORDINAL + t / 1000000 / 86400)) as H.
  destruct (_ord2ymd _) as [[y m] d]. exact H.
Qed.

End CalendarFacts.

Example utc_2024_01_31 :
  Calendar.utc 1706745599999999
  = Calendar.mkDatetime 2024 1 31 23 59 59 999999.
Proof. reflexivity. Qed.

Example utc_2024_02_29 :
  Calendar.utc 1709164800000000 = Calendar.mkDatetime 2024 2 29 0 0 0 0.
Proof. reflexivity. Qed.

Example utc_2000_12_31 :
  Calendar.utc 978307199000000 = Calendar.mkDatetime 2000 12 31 23 59 59 0.
Proof. reflexivity. Qed.

Example utc_epoch : Calendar.utc 0 = Calendar.mkDatetime 1970 1 1 0 0 0 0.
Proof. reflexivity. Qed.

Example ascii_int_examples :
  map ascii_int
    [" 12 "; "-7"; "1_000"; "1__0"; ""; "+"; "12a"; "_1"; "1_"; "abc";
     String (ascii_of_nat 31) "5"]
  = [Some 12; Some (-7); Some 1000; None; None; None; None; None; None; None;
     None].
Proof. reflexivity. Qed.

(* ===================================================================== *)
(** ** The event store *)
(* ===================================================================== *)

Lemma max_id_app t v : max_id (t ++ [v]) = Z.max (max_id t) (id_of v).
Proof.
  unfold max_id. induction t as [|w t IH]; simpl.
  - lia.
  - rewrite IH. lia.
Qed.

Lemma max_id_nonneg t : 0 <= max_id t.
Proof. unfold max_id. induction t as [|w t IH]; simpl; lia. Qed.

(** The key of a new row is larger than every key of the table. *)
Lemma next_id_fresh t v : In v t -> id_of v < next_id t.
Proof.
  unfold next_id, max_id. induction t as [|w t IH]; simpl; [tauto|].
  intros [-> | Hin]; [lia|]. specialize (IH Hin). lia.
Qed.

Lemma count_distinct_visitors_nonneg t month year :
  0 <= count_distinct_visitors t month year.
Proof. unfold count_distinct_visitors. lia. Qed.

Lemma In_not_null a l : In a (not_null l) <-> In (Some a) l.
Proof.
  induction l as [|[b|] l IH]; simpl.
  - tauto.
  - rewrite IH. split; intros [H | H]; auto; left; congruence.
  - rewrite IH. split; [auto | intros [H | H]; [discriminate | exact H]].
Qed.

Lemma visit_in_period_true month year v :
  visit_in_period month year v = true
  <-> visit_month v = month /\ visit_year v = year.
Proof.
  unfold visit_in_period. rewrite andb_true_iff, !Z.eqb_eq. tauto.
Qed.

(** X1. The query counts the distinct addresses of the rows of the period:
    its result is the length of every duplicate-free list of exactly the
    addresses that have a row with that month and that year. *)
Lemma count_distinct_visitors_spec t month year l :
  NoDup l ->
  (forall a, In a l <->
             exists v, In v t /\ visit_month v = month /\ visit_year v = year
                       /\ ip_address v = Some a) ->
  count_distinct_visitors t month year = Z.of_nat (List.length l).
Proof.
  intros Hnd Hl. unfold count_distinct_visitors. f_equal.
  apply Permutation_length, NoDup_Permutation.
  - apply NoDup_nodup.
  - exact Hnd.
  - intros a. rewrite nodup_In, In_not_null, in_map_iff, Hl.
    split; intros (v & H1 & H2).
    + apply filter_In in H2. destruct H2 as [Hin Hp].
      apply visit_in_period_true in Hp. exists v. tauto.
    + destruct H2 as (Hm & Hy & Hip). exists v. split; [exact Hip|].
      apply filter_In. split; [exact H1|].
      apply visit_in_period_true. tauto.
Qed.

Lemma count_distinct_visitors_spec_witness :
  count_distinct_visitors (table Sample.visited) 3 2024 = 2.
Proof.
  refine (count_distinct_visitors_spec (table Sample.visited) 3 2024
            ["203.0.113.7"; "198.51.100.2"] _ _).
  - constructor; [|constructor; [|constructor]]; simpl.
    + intros [H | []]. discriminate H.
    + intros [].
  - intros a. simpl. split.
    + intros [<- | [<- | []]].
      * exists (Sample.row 1 "203.0.113.7" 3 2024). simpl. tauto.
      * exists (Sample.row 2 "198.51.100.2" 3 2024). simpl. tauto.
    + intros (v & [<- | [<- | [<- | [<- | []]]]] & Hm & Hy & Hip);
        simpl in Hm, Hip; try discriminate Hm; injection Hip as <-; tauto.
Defined.

Example count_distinct_visitors_sample :
  count_distinct_visitors (table Sample.visited) 3 2024 = 2.
Proof. reflexivity. Qed.


(* ===================================================================== *)
(** ** Running the handlers *)
(* ===================================================================== *)

Lemma bind_Ret_inv {A B : Type} (m : M A) (k : A -> M B) env s b s' :
  bind m k env s = (Ret b, s') ->
  exists a s1, m env s = (Ret a, s1) /\ k a env s1 = (Ret b, s').
Proof.
  unfold bind. destruct (m env s) as [[a|e] s1]; intros H.
  - exists a, s1. split; [reflexivity | exact H].
  - discriminate H.
Qed.

(** A view whose rule matches the request is run on a fresh session and its
    outcome is concluded. *)
Lemma wsgi_app_view cfg env request s methods ep :
  assoc (Request.path request) (url_map) = Some (methods, ep) ->
  existsb (Method_eqb (Request.method request)) methods = true ->
  Method_eqb (Request.method request) OPTIONS = false ->
  wsgi_app cfg env request s
  = conclude cfg (view_function cfg ep request env (set_session [] s)).
Proof.
  intros Hrule Hmeth Hopt.
  unfold wsgi_app, full_dispatch_request, dispatch_request, conclude.
  rewrite Hrule, Hmeth, Hopt.
  unfold bind at 1, try_except.
  destruct (view_function cfg ep request env (set_session [] s))
    as [[[ | payload status | r] | e] s1]; simpl; try reflexivity.
  unfold handle_user_exception.
  destruct e; reflexivity.
Qed.

Lemma wsgi_app_track_visit cfg env request s :
  Request.path request = "/api/track-visit" -> Request.method request = POST ->
  wsgi_app cfg env request s
  = conclude cfg (track_visit request env (set_session [] s)).
Proof.
  intros Hp Hm.
  apply (wsgi_app_view cfg env request s [POST; OPTIONS] ep_track_visit);
    rewrite ?Hp, ?Hm; reflexivity.
Qed.

Lemma wsgi_app_get_monthly_visitors cfg env request s :
  Request.path request = "/api/monthly-visitors" ->
  Request.method request = GET ->
  wsgi_app cfg env request s
  = conclude cfg (get_monthly_visitors request env (set_session [] s)).
Proof.
  intros Hp Hm.
  apply (wsgi_app_view cfg env request s [GET; HEAD; OPTIONS]
           ep_get_monthly_visitors);
    rewrite ?Hp, ?Hm; reflexivity.
Qed.

Lemma wsgi_app_notify_click cfg env request s :
  Request.path request = "/api/notify-click" -> Request.method request = POST ->
  wsgi_app cfg env request s
  = conclude cfg (notify_click cfg request env (set_session [] s)).
Proof.
  intros Hp Hm.
  apply (wsgi_app_view cfg env request s [POST; OPTIONS] ep_notify_click);
    rewrite ?Hp, ?Hm; reflexivity.
Qed.

(** [track_visit] on a fresh session, when the body lets it reach the
    insert. *)
Lemma track_visit_run env request s :
  session s = [] -> reaches_insert request ->
  track_visit request env s =
    if db_up env then
      match Request.remote_addr request with
      | Some _ =>
          (Ret (RvTuple (jsonify track_ok) 201),
           mkState (table s ++ [new_row env request s]) [] (outbox s)
             (logger s) (S (S (reads s))))
      | None =>
          (Ret (RvTuple (jsonify track_failed) 500),
           mkState (table s) [] (outbox s)
             (logger s
              ++ [(ERROR, [Lit "Error tracking visit: "; Err IntegrityError])])
             (S (S (reads s))))
      end
    else
      (Ret (RvTuple (jsonify track_failed) 500),
       mkState (table s) [] (outbox s)
         (logger s
          ++ [(ERROR, [Lit "Error tracking visit: "; Err OperationalError])])
         (S (reads s))).
Proof.
  intros Hs Hb. destruct s as [t p o l r]. simpl in Hs. subst p.
  unfold track_visit, new_row, request_json.
  destruct Hb as [Hb | [d Hb]]; rewrite Hb.
  - py_unfold. simpl.
    destruct (db_up env); [destruct (Request.remote_addr request)|];
      reflexivity.
  - destruct (Request.is_json request); py_unfold; simpl;
      (destruct (db_up env); [destruct (Request.remote_addr request)|];
       reflexivity).
Qed.

(** A body that does not let [track_visit] reach the insert makes it raise
    at once, whatever the state. *)
Lemma track_visit_raises env request s :
  ~ reaches_insert request ->
  exists e, track_visit request env s = (Raise e, s)
            /\ (e = BadRequest \/ e = AttributeError).
Proof.
  intros Hb. unfold reaches_insert in Hb.
  unfold track_visit, request_json.
  destruct (Request.is_json request); [|tauto].
  destruct (Request.json request) as [[ | b | n | x | items | d]|];
    try (eexists; split; [reflexivity | tauto]).
  exfalso. apply Hb. right. exists d. reflexivity.
Qed.

Lemma get_monthly_visitors_run request env s :
  get_monthly_visitors request env s =
    let current_time := Calendar.utc (clock env (reads s)) in
    let month := args_get_int env request "month" (Calendar.month current_time) in
    let year := args_get_int env request "year" (Calendar.year current_time) in
    let failed e :=
      (Ret (RvTuple
              (jsonify (JObj [("error", JStr "Could not retrieve visitor count")]))
              500),
       mkState (table s) (session s) (outbox s)
         (logger s
          ++ [(ERROR, [Lit "Error getting monthly visitor count: "; Err e])])
         (S (reads s))) in
    if db_up env then
      if in_int64 month && in_int64 year then
        (Ret (RvTuple
                (jsonify
                   (monthly_payload month year
                      (count_distinct_visitors (table s) month year + 2))) 200),
         set_reads (S (reads s)) s)
      else failed OverflowError
    else failed OperationalError.
Proof.
  unfold get_monthly_visitors. py_unfold. cbv zeta.
  destruct (db_up env); [|reflexivity].
  set (month := args_get_int env request "month" _).
  set (year := args_get_int env request "year" _).
  destruct (in_int64 month); [|reflexivity].
  destruct (in_int64 year); [|reflexivity].
  cbn [andb].
  unfold monthly_payload, py_or_int.
  pose proof (count_distinct_visitors_nonneg (table s) month year) as Hc.
  replace (let (table, _, _, _, _) := s in table) with (table s)
    by reflexivity.
  destruct (count_distinct_visitors (table s) month year + 2 =? 0) eqn:E.
  - apply Z.eqb_eq in E. lia.
  - destruct s; reflexivity.
Qed.

(** The query writes no row and sends no mail. *)
Lemma get_monthly_visitors_frame request env s :
  table (snd (get_monthly_visitors request env s)) = table s
  /\ outbox (snd (get_monthly_visitors request env s)) = outbox s.
Proof.
  rewrite get_monthly_visitors_run. cbv zeta.
  destruct (db_up env); [destruct (in_int64 _ && in_int64 _)|]; destruct s;
    split; reflexivity.
Qed.

(** [notify_click] never returns a response: it ends without a value, or
    raises outside of its [try] when the body is JSON but no object. *)
Lemma notify_click_outcome cfg request env s :
  (exists s1, notify_click cfg request env s = (Ret RvNone, s1))
  \/ notify_click cfg request env s = (Raise AttributeError, s).
Proof.
  unfold notify_click.
  destruct (py_or (get_json_silent request) (JObj []))
    as [ | b | n | x | items | d]; try (right; reflexivity).
  left. py_unfold. destruct (mail_up env); [destruct (refused _)|];
    eexists; reflexivity.
Qed.

(** A failure of the mail transport is caught and logged by
    [notify_click]: the function still ends normally. *)
Lemma notify_click_swallows_delivery_failure cfg request env s :
  mail_up env = false ->
  notify_click cfg request env s = (Raise AttributeError, s)
  \/ notify_click cfg request env s
     = (Ret RvNone,
        set_logger
          (logger s
           ++ [(ERROR, [Lit "Error sending visitor email via Gmail: ";
                        Err SMTPException])]
           ++ [(ERROR, mail_config_line cfg)]) s).
Proof.
  intros Hmail. unfold notify_click.
  destruct (py_or (get_json_silent request) (JObj []))
    as [ | b | n | x | items | d]; try (left; reflexivity).
  right. py_unfold. rewrite Hmail. destruct s; simpl.
  rewrite <- app_assoc. reflexivity.
Qed.

Lemma conclude_table cfg out :
  table (snd (conclude cfg out)) = table (snd out).
Proof.
  destruct out as [[[ | payload status | r] | e] s]; simpl; try reflexivity.
  destruct e; reflexivity.
Qed.

Lemma conclude_outbox cfg out :
  outbox (snd (conclude cfg out)) = outbox (snd out).
Proof.
  destruct out as [[[ | payload status | r] | e] s]; simpl; try reflexivity.
  destruct e; reflexivity.
Qed.

Lemma conclude_session cfg out : session (snd (conclude cfg out)) = [].
Proof.
  destruct out as [[[ | payload status | r] | e] s]; simpl; try reflexivity.
  destruct e; reflexivity.
Qed.

Lemma reaches_insert_dec request :
  reaches_insert request \/ ~ reaches_insert request.
Proof.
  unfold reaches_insert.
  destruct (Request.is_json request); [|tauto].
  destruct (Request.json request) as [[ | b | n | x | items | d]|];
    try (right; intros [H | [d' H]]; discriminate).
  left. right. exists d. reflexivity.
Qed.

Lemma track_visit_table env request s :
  session s = [] ->
  table (snd (track_visit request env s)) = table s
  \/ table (snd (track_visit request env s)) = table s ++ [new_row env request s].
Proof.
  intros Hs. destruct (reaches_insert_dec request) as [Hb | Hb].
  - rewrite (track_visit_run env request s Hs Hb).
    destruct (db_up env); [destruct (Request.remote_addr request)|]; simpl; tauto.
  - destruct (track_visit_raises env request s Hb) as [e [-> _]]. simpl. tauto.
Qed.

Lemma notify_click_table cfg request env s :
  table (snd (notify_click cfg request env s)) = table s.
Proof.
  unfold notify_click.
  destruct (py_or (get_json_silent request) (JObj []))
    as [ | b | n | x | items | d]; try reflexivity.
  py_unfold. destruct (mail_up env); [destruct (refused _)|]; reflexivity.
Qed.

(** A request leaves the table as it is or appends the row of a visit. *)
Lemma wsgi_app_table cfg env request s :
  table (snd (wsgi_app cfg env request s)) = table s
  \/ table (snd (wsgi_app cfg env request s))
     = table s ++ [new_row env request s].
Proof.
  destruct (assoc (Request.path request) url_map) as [[methods ep]|] eqn:Hrule.
  - destruct (existsb (Method_eqb (Request.method request)) methods) eqn:Hmeth.
    + destruct (Method_eqb (Request.method request) OPTIONS) eqn:Hopt.
      * left. unfold wsgi_app, full_dispatch_request, dispatch_request.
        rewrite Hrule, Hmeth, Hopt. reflexivity.
      * rewrite (wsgi_app_view cfg env request s methods ep Hrule Hmeth Hopt).
        rewrite conclude_table.
        destruct ep; simpl view_function.
        -- destruct (track_visit_table env request (set_session [] s)
                       eq_refl) as [H | H]; rewrite H; [left | right];
             destruct s; reflexivity.
        -- left.
           rewrite (proj1 (get_monthly_visitors_frame request env
                             (set_session [] s))).
           destruct s; reflexivity.
        -- left. rewrite notify_click_table. destruct s; reflexivity.
    + left. unfold wsgi_app, full_dispatch_request, dispatch_request.
      rewrite Hrule, Hmeth. reflexivity.
  - left. unfold wsgi_app, full_dispatch_request, dispatch_request.
    rewrite Hrule. reflexivity.
Qed.

Lemma new_row_month env request s :
  1 <= visit_month (new_row env request s) <= 12.
Proof. apply CalendarFacts.utc_month. Qed.


Lemma after_request_headers cfg r :
  Response.headers (after_request cfg r) = Response.headers r ++ cors_headers cfg.
Proof.
  unfold after_request, Response.headers_add, cors_headers. simpl.
  repeat rewrite <- app_assoc. reflexivity.
Qed.

Lemma after_request_status cfg r :
  Response.status (after_request cfg r) = Response.status r.
Proof. reflexivity. Qed.

Lemma after_request_body cfg r :
  Response.body (after_request cfg r) = Response.body r.
Proof. reflexivity. Qed.

(** Every response of the application went through [after_request]. *)
Lemma wsgi_app_after_request cfg env request s :
  exists r, fst (wsgi_app cfg env request s) = after_request cfg r.
Proof.
  unfold wsgi_app.
  destruct (full_dispatch_request cfg request env (set_session [] s))
    as [[response | e] s1] eqn:E.
  - unfold full_dispatch_request in E.
    apply bind_Ret_inv in E. destruct E as (r & s2 & _ & E).
    unfold finalize_request in E.
    apply bind_Ret_inv in E. destruct E as (r0 & s3 & _ & E).
    exists r0. unfold ret in E. injection E as <- _. reflexivity.
  - exists (error_response 500). reflexivity.
Qed.

Lemma table_set_session p s : table (set_session p s) = table s.
Proof. destruct s; reflexivity. Qed.

Lemma reads_set_session p s : reads (set_session p s) = reads s.
Proof. destruct s; reflexivity. Qed.

(** The value the handler takes for a parameter is the one [resolves]
    describes. *)
Lemma resolves_args_get_int env request key default n :
  resolves env request key default n ->
  args_get_int env request key default = n.
Proof.
  unfold resolves, absent_or_unparsable, args_get_int.
  intros [(v & Hv & Hn) | (Habs & ->)].
  - rewrite Hv, Hn. reflexivity.
  - destruct (assoc key (Request.args request)) as [v|]; [|reflexivity].
    rewrite (Habs v eq_refl). reflexivity.
Qed.

Lemma args_get_int_resolves env request key default :
  resolves env request key default (args_get_int env request key default).
Proof.
  unfold resolves, absent_or_unparsable, args_get_int.
  destruct (assoc key (Request.args request)) as [v|].
  - destruct (py_int env v) as [n|] eqn:E.
    + left. exists v. split; [reflexivity | exact E].
    + right. split; [|reflexivity]. intros v' H. injection H as <-. exact E.
  - right. split; [|reflexivity]. intros v H. discriminate H.
Qed.

(** The query returns the length of a list of the distinct addresses of the
    period. *)
Lemma distinct_addresses_count t month year l :
  distinct_addresses t month year l ->
  count_distinct_visitors t month year = Z.of_nat (List.length l).
Proof.
  intros [Hnd Hl]. unfold count_distinct_visitors. f_equal.
  apply Permutation_length, NoDup_Permutation;
    [apply NoDup_nodup | exact Hnd |].
  intros a. rewrite nodup_In, In_not_null, in_map_iff, Hl.
  split; intros (v & H1 & H2).
  - apply filter_In in H2. destruct H2 as [Hin Hp].
    apply visit_in_period_true in Hp. exists v. tauto.
  - destruct H2 as (Hm & Hy & Hip). exists v. split; [exact Hip|].
    apply filter_In. split; [exact H1|].
    apply visit_in_period_true. tauto.
Qed.

Lemma distinct_addresses_exists t month year :
  exists l, distinct_addresses t month year l.
Proof.
  exists (nodup string_dec
            (not_null (map ip_address (filter (visit_in_period month year) t)))).
  split; [apply NoDup_nodup|].
  intros a. rewrite nodup_In, In_not_null, in_map_iff.
  split; intros (v & H1 & H2).
  - apply filter_In in H2. destruct H2 as [Hin Hp].
    apply visit_in_period_true in Hp. exists v. tauto.
  - destruct H2 as (Hm & Hy & Hip). exists v. split; [exact Hip|].
    apply filter_In. split; [exact H1|].
    apply visit_in_period_true. tauto.
Qed.

(** GET /api/monthly-visitors, from the request to the response. *)
Lemma wsgi_app_monthly_visitors cfg env request s month year :
  Request.path request = "/api/monthly-visitors" ->
  Request.method request = GET ->
  resolves env request "month"
    (Calendar.month (Calendar.utc (clock env (reads s)))) month ->
  resolves env request "year"
    (Calendar.year (Calendar.utc (clock env (reads s)))) year ->
  fst (wsgi_app cfg env request s)
  = after_request cfg
      (if db_up env && in_int64 month && in_int64 year
       then json_response
              (monthly_payload month year
                 (count_distinct_visitors (table s) month year + 2)) 200
       else json_response
              (JObj [("error", JStr "Could not retrieve visitor count")]) 500).
Proof.
  intros Hp Hm Hmonth Hyear.
  rewrite (wsgi_app_get_monthly_visitors cfg env request s Hp Hm).
  rewrite get_monthly_visitors_run.
  rewrite reads_set_session, table_set_session. cbv zeta.
  rewrite (resolves_args_get_int _ _ _ _ _ Hmonth).
  rewrite (resolves_args_get_int _ _ _ _ _ Hyear).
  destruct (db_up env); [destruct (in_int64 month && in_int64 year) eqn:E|];
    cbn [andb]; try rewrite <- andb_assoc; cbn [andb]; try rewrite E;
    reflexivity.
Qed.

(* ===================================================================== *)
(** ** The claims *)
(* ===================================================================== *)

(** C1. A GET /api/monthly-visitors request that is answered 200 reports as
    [unique_visitors] the number of distinct addresses that have a row in
    the queried (month, year), plus 2: for the period the parameters
    resolve to and every list [l] of the distinct addresses of that period,
    the body is [{month, year, unique_visitors: length l + 2}].  The sum is
    never 0, so [or 2] never replaces it, and with no address in the period
    the reported value is 2. *)
Theorem monthly_visitors_count_plus_two cfg env request s month year l :
  Request.path request = "/api/monthly-visitors" ->
  Request.method request = GET ->
  let response := fst (wsgi_app cfg env request s) in
  let current_time := Calendar.utc (clock env (reads s)) in
  let count := Z.of_nat (List.length l) in
  resolves env request "month" (Calendar.month current_time) month ->
  resolves env request "year" (Calendar.year current_time) year ->
  distinct_addresses (table s) month year l ->
  Response.status response = 200 ->
  Response.body response
  = Response.Json
      (JObj [("month", JInt month); ("year", JInt year);
             ("unique_visitors", JInt (count + 2))])
  /\ count + 2 <> 0
  /\ py_or_int (count + 2) 2 = count + 2
  /\ (l = [] ->
      Response.body response
      = Response.Json
          (JObj [("month", JInt month); ("year", JInt year);
                 ("unique_visitors", JInt 2)])).
Proof.
  intros Hp Hm response current_time count Hmonth Hyear Hl.
  subst response.
  rewrite (wsgi_app_monthly_visitors cfg env request s month year Hp Hm
             Hmonth Hyear).
  rewrite (distinct_addresses_count _ _ _ _ Hl). fold count.
  assert (Hne : count + 2 <> 0) by (subst count; lia).
  destruct (db_up env && in_int64 month && in_int64 year);
    cbn [after_request Response.headers_add Response.status Response.body
         json_response]; [|intros H; discriminate H].
  intros _. split; [reflexivity|]. split; [exact Hne|]. split.
  - unfold py_or_int. destruct (count + 2 =? 0) eqn:E; [|reflexivity].
    apply Z.eqb_eq in E. contradiction.
  - intros Hnil. subst count. rewrite Hnil. reflexivity.
Qed.

Lemma monthly_visitors_count_plus_two_witness :
  Response.body
    (fst (wsgi_app Sample.cfg Sample.env_ok
            (Sample.get "/api/monthly-visitors"
               [("month", "2"); ("year", "2024")])
            Sample.visited))
  = Response.Json
      (JObj [("month", JInt 2); ("year", JInt 2024);
             ("unique_visitors", JInt 3)]).
Proof.
  refine (proj1 (monthly_visitors_count_plus_two Sample.cfg Sample.env_ok
                   (Sample.get "/api/monthly-visitors"
                      [("month", "2"); ("year", "2024")])
                   Sample.visited 2 2024 ["192.0.2.9"] eq_refl eq_refl
                   _ _ _ eq_refl)).
  - left. exists "2". split; reflexivity.
  - left. exists "2024". split; reflexivity.
  - split.
    + constructor; [intros [] | constructor].
    + intros a. simpl. split.
      * intros [<- | []].
        exists (Sample.row 4 "192.0.2.9" 2 2024). simpl. tauto.
      * intros (v & [<- | [<- | [<- | [<- | []]]]] & Hm & Hy & Hip);
          simpl in Hm, Hip; try discriminate Hm; injection Hip as <-; tauto.
Defined.

(** C2. No POST /api/notify-click request is answered with a success:
    [notify_click] ends without a [return], Flask refuses the [None] of the
    view with a [TypeError] and the request is answered by the 500 page,
    whether the mail was delivered or the failure of the delivery was
    swallowed. *)
Theorem notify_click_is_answered_500 cfg env request s :
  Request.path request = "/api/notify-click" ->
  Request.method request = POST ->
  let response := fst (wsgi_app cfg env request s) in
  Response.status response = 500
  /\ Response.body response = Response.ErrorPage 500.
Proof.
  intros Hp Hm response. subst response.
  rewrite (wsgi_app_notify_click cfg env request s Hp Hm).
  destruct (notify_click_outcome cfg request env (set_session [] s))
    as [[s1 H] | H]; rewrite H; split; reflexivity.
Qed.

Lemma notify_click_is_answered_500_witness :
  Response.status
    (fst (wsgi_app Sample.cfg Sample.env_ok Sample.click initial_state)) = 500
  /\ Response.status
       (fst (wsgi_app Sample.cfg Sample.env_down Sample.click initial_state))
     = 500.
Proof.
  split.
  - exact (proj1 (notify_click_is_answered_500 Sample.cfg Sample.env_ok
                    Sample.click initial_state eq_refl eq_refl)).
  - exact (proj1 (notify_click_is_answered_500 Sample.cfg Sample.env_down
                    Sample.click initial_state eq_refl eq_refl)).
Defined.

(** C3. A visit recorded while the month changes: the handler reads the
    clock in the last microsecond of January 2024, the column default of
    [timestamp] reads it again two microseconds later.  The stored row is
    of period (1, 2024) and its timestamp is of February 2024. *)
Theorem visit_period_differs_from_timestamp :
  table (snd (wsgi_app Sample.cfg Sample.env_rollover Sample.visit
                initial_state))
  = [mkVisitor (Some 1) (Some "203.0.113.7") (Some "curl/8.5")
       (Some (Calendar.mkDatetime 2024 2 1 0 0 0 1)) 1 2024].
Proof. reflexivity. Qed.

(** The period fields of a written row are those of its timestamp when the
    two readings of the clock fall in the same month of the same year. *)
Lemma visit_period_matches_timestamp_within_month env request s ts :
  timestamp (new_row env request s) = Some ts ->
  Calendar.month (Calendar.utc (clock env (reads s)))
  = Calendar.month (Calendar.utc (clock env (S (reads s)))) ->
  Calendar.year (Calendar.utc (clock env (reads s)))
  = Calendar.year (Calendar.utc (clock env (S (reads s)))) ->
  visit_month (new_row env request s) = Calendar.month ts
  /\ visit_year (new_row env request s) = Calendar.year ts.
Proof.
  unfold new_row. simpl. intros H Hmonth Hyear.
  injection H as <-. split; assumption.
Qed.

(** C4. A POST /api/track-visit request answered 201 has appended exactly
    one row, whose period fields are the UTC month and year of the
    handler's reading of the clock; a second, identical request answered
    201 appends a row of its own, with another key. *)
Theorem track_visit_appends_one_row cfg env1 env2 request s :
  Request.path request = "/api/track-visit" ->
  Request.method request = POST ->
  let out1 := wsgi_app cfg env1 request s in
  let out2 := wsgi_app cfg env2 request (snd out1) in
  (Response.status (fst out1) = 201 ->
   exists v,
     table (snd out1) = table s ++ [v]
     /\ visit_month v = Calendar.month (Calendar.utc (clock env1 (reads s)))
     /\ visit_year v = Calendar.year (Calendar.utc (clock env1 (reads s))))
  /\ (Response.status (fst out1) = 201 ->
      Response.status (fst out2) = 201 ->
      exists v1 v2,
        table (snd out2) = table s ++ [v1; v2]
        /\ id v1 <> id v2
        /\ ip_address v1 = ip_address v2
        /\ user_agent v1 = user_agent v2).
Proof.
  intros Hp Hm out1 out2. subst out2 out1.
  rewrite (wsgi_app_track_visit cfg env1 request s Hp Hm).
  destruct (reaches_insert_dec request) as [Hb | Hb].
  - rewrite (track_visit_run env1 request (set_session [] s) eq_refl Hb).
    destruct (db_up env1); [destruct (Request.remote_addr request) eqn:Hip|];
      cbn [conclude fst snd after_request_status];
      try (split; intros H; discriminate H).
    set (s1 := set_session [] _).
    rewrite (wsgi_app_track_visit cfg env2 request s1 Hp Hm).
    rewrite (track_visit_run env2 request (set_session [] s1) eq_refl Hb).
    rewrite Hip.
    split.
    + intros _. exists (new_row env1 request (set_session [] s)).
      destruct s; repeat split; reflexivity.
    + intros _.
      destruct (db_up env2); cbn [conclude fst snd]; [|intros H; discriminate H].
      intros _.
      exists (new_row env1 request (set_session [] s)),
             (new_row env2 request (set_session [] s1)).
      split; [|split; [|split; reflexivity]].
      * subst s1. destruct s. simpl. rewrite <- app_assoc. reflexivity.
      * subst s1. destruct s as [t p o l r].
        unfold new_row. cbn [id table set_session session outbox logger reads].
        unfold next_id. rewrite max_id_app. cbn [id_of id].
        intros H. injection H as H. lia.
  - destruct (track_visit_raises env1 request (set_session [] s) Hb)
      as [e [He Hcase]].
    rewrite He.
    split; intros H; destruct Hcase; subst e; discriminate H.
Qed.

Lemma track_visit_appends_one_row_witness :
  exists v1 v2,
    table (snd (wsgi_app Sample.cfg Sample.env_ok Sample.visit
                  (snd (wsgi_app Sample.cfg Sample.env_ok Sample.visit
                          Sample.visited))))
    = table Sample.visited ++ [v1; v2]
    /\ id v1 <> id v2
    /\ ip_address v1 = ip_address v2
    /\ user_agent v1 = user_agent v2.
Proof.
  exact (proj2 (track_visit_appends_one_row Sample.cfg Sample.env_ok
                  Sample.env_ok Sample.visit Sample.visited eq_refl eq_refl)
           eq_refl eq_refl).
Defined.






(** A period that does not fit the integers of the store makes the query
    raise; the handler answers its 500 response. *)
Lemma monthly_visitors_overflow cfg env request s month year :
  Request.path request = "/api/monthly-visitors" ->
  Request.method request = GET ->
  resolves env request "month"
    (Calendar.month (Calendar.utc (clock env (reads s)))) month ->
  resolves env request "year"
    (Calendar.year (Calendar.utc (clock env (reads s)))) year ->
  in_int64 month && in_int64 year = false ->
  fst (wsgi_app cfg env request s)
  = after_request cfg
      (json_response
         (JObj [("error", JStr "Could not retrieve visitor count")]) 500).
Proof.
  intros Hp Hm Hmonth Hyear Hover.
  rewrite (wsgi_app_monthly_visitors cfg env request s month year Hp Hm
             Hmonth Hyear).
  rewrite <- andb_assoc, Hover, andb_false_r. reflexivity.
Qed.




Lemma after_request_checked_safe cfg response env s :
  header_safe cfg = true ->
  after_request_checked cfg response env s = (Ret (after_request cfg response), s).
Proof.
  unfold header_safe, after_request_checked, after_request, headers_add_checked.
  intros H. apply negb_true_iff in H.
  unfold bind at 1. rewrite H. reflexivity.
Qed.

Lemma after_request_checked_unsafe cfg response env s :
  header_safe cfg = false ->
  after_request_checked cfg response env s = (Raise ValueError, s).
Proof.
  unfold header_safe, after_request_checked, headers_add_checked.
  intros H. apply negb_false_iff in H.
  unfold bind at 1. rewrite H. reflexivity.
Qed.

Lemma finalize_request_checked_safe cfg from_error_handler r env s :
  header_safe cfg = true ->
  finalize_request_checked cfg from_error_handler r env s
  = finalize_request cfg r env s.
Proof.
  intros Hsafe. unfold finalize_request_checked, finalize_request, bind.
  destruct (make_response r env s) as [[response | e] s1]; [|reflexivity].
  unfold try_except.
  rewrite (after_request_checked_safe cfg response env s1 Hsafe).
  reflexivity.
Qed.

Lemma handle_exception_checked_safe cfg e env s :
  header_safe cfg = true ->
  handle_exception_checked cfg e env s
  = (Ret (fst (handle_exception cfg e s)), snd (handle_exception cfg e s)).
Proof.
  intros Hsafe. unfold handle_exception_checked, handle_exception, log, modify, bind.
  rewrite (finalize_request_checked_safe cfg true _ env _ Hsafe).
  reflexivity.
Qed.

(** With a [FRONTEND_URL] that is accepted as a header value the checked
    application is [wsgi_app]. *)
Lemma serve_wsgi_app cfg env request s :
  header_safe cfg = true ->
  serve cfg env request s = wsgi_app cfg env request s.
Proof.
  intros Hsafe.
  unfold serve, wsgi_app, full_dispatch_request_checked, full_dispatch_request.
  remember (try_except (dispatch_request cfg request)
              (fun e => handle_user_exception e)) as dispatch.
  unfold try_except, bind.
  destruct (dispatch env (set_session [] s)) as [[r | e] s1].
  - rewrite (finalize_request_checked_safe cfg false r env s1 Hsafe).
    destruct (finalize_request cfg r env s1) as [[response | e] s2];
      [reflexivity|].
    rewrite (handle_exception_checked_safe cfg e env s2 Hsafe).
    reflexivity.
  - rewrite (handle_exception_checked_safe cfg e env s1 Hsafe).
    reflexivity.
Qed.

Lemma handle_exception_checked_unsafe cfg e env s :
  header_safe cfg = false ->
  fst (handle_exception_checked cfg e env s) = Ret (error_response 500).
Proof.
  intros Hunsafe.
  unfold handle_exception_checked, finalize_request_checked, log, modify, bind,
    try_except.
  cbn [make_response ret].
  rewrite (after_request_checked_unsafe cfg _ env _ Hunsafe).
  reflexivity.
Qed.

(** With a [FRONTEND_URL] that has a line break every request is answered
    by the 500 page as it is, without any header of [after_request]. *)
Lemma serve_unsafe cfg env request s :
  header_safe cfg = false ->
  fst (serve cfg env request s) = error_response 500.
Proof.
  intros Hunsafe.
  unfold serve, full_dispatch_request_checked.
  remember (try_except (dispatch_request cfg request)
              (fun e => handle_user_exception e)) as dispatch.
  unfold try_except at 1. unfold bind at 1.
  assert (H : forall e s0,
            fst (let (r, s') := handle_exception_checked cfg e env s0 in
                 match r with
                 | Ret response => (response, set_session [] s')
                 | Raise _ => (error_response 500, set_session [] s')
                 end) = error_response 500).
  { intros e s0.
    pose proof (handle_exception_checked_unsafe cfg e env s0 Hunsafe) as H.
    destruct (handle_exception_checked cfg e env s0) as [r s']. cbn in H.
    rewrite H. reflexivity. }
  destruct (dispatch env (set_session [] s)) as [[r | e] s1]; [|apply H].
  unfold finalize_request_checked, bind.
  destruct (make_response r env s1) as [[response | e] s2]; [|apply H].
  unfold try_except.
  rewrite (after_request_checked_unsafe cfg response env s2 Hunsafe).
  apply H.
Qed.

(** C8. When the configured [FRONTEND_URL] has no line break (or none is
    configured), every response of the application, on every route and for
    every outcome, carries the four CORS headers of [after_request].  (With
    a line break in it, [headers.add] refuses the value and no response
    carries them: [serve_unsafe].) *)
Theorem every_response_carries_cors_headers cfg env request s :
  header_safe cfg = true ->
  incl (cors_headers cfg)
    (Response.headers (fst (serve cfg env request s))).
Proof.
  intros Hsafe. rewrite (serve_wsgi_app cfg env request s Hsafe).
  destruct (wsgi_app_after_request cfg env request s) as [r ->].
  rewrite after_request_headers. apply incl_appr, incl_refl.
Qed.

Lemma every_response_carries_cors_headers_witness :
  incl (cors_headers Sample.cfg)
    (Response.headers
       (fst (serve Sample.cfg Sample.env_down Sample.visit initial_state))).
Proof.
  exact (every_response_carries_cors_headers Sample.cfg Sample.env_down
           Sample.visit initial_state eq_refl).
Defined.

(** C8 as it was stated fails at a configuration whose [FRONTEND_URL] has
    a line break: the visit is recorded, the response has the content type of the 500 page as its only
    header, and none of the four CORS headers. *)
Lemma every_response_carries_cors_headers_counterexample :
  Response.headers
    (fst (serve Sample.cfg_line_break Sample.env_ok Sample.visit initial_state))
  = [("Content-Type", "text/html; charset=utf-8")]
  /\ ~ incl (cors_headers Sample.cfg_line_break)
        (Response.headers
           (fst (serve Sample.cfg_line_break Sample.env_ok Sample.visit
                   initial_state))).
Proof.
  split; [reflexivity|].
  intros H.
  specialize (H ("Access-Control-Allow-Credentials", "true")).
  cbn in H. destruct H as [H | []].
  - right. right. right. left. reflexivity.
  - discriminate H.
Qed.

(** C9. What the body of a POST /api/track-visit request says, [pageURL]
    included, changes neither the response nor the state: two requests
    that differ in their body only and whose bodies let the handler run are
    answered alike and leave the same state.  The handler sends no mail,
    and the row it writes, if any, is made of the address, the user agent
    and the clock. *)
Theorem page_url_is_not_persisted cfg env request1 request2 s :
  Request.path request1 = "/api/track-visit" ->
  Request.method request1 = POST ->
  same_but_body request1 request2 ->
  reaches_insert request1 ->
  reaches_insert request2 ->
  let out1 := wsgi_app cfg env request1 s in
  let out2 := wsgi_app cfg env request2 s in
  out1 = out2
  /\ outbox (snd out1) = outbox s
  /\ (table (snd out1) = table s
      \/ table (snd out1)
         = table s
           ++ [mkVisitor (Some (next_id (table s)))
                 (Request.remote_addr request1)
                 (headers_get request1 "User-Agent")
                 (Some (Calendar.utc (clock env (S (reads s)))))
                 (Calendar.month (Calendar.utc (clock env (reads s))))
                 (Calendar.year (Calendar.utc (clock env (reads s))))]).
Proof.
  intros Hp Hm (Hmeth & Hpath & Hip & Hh & _) Hb1 Hb2 out1 out2.
  subst out1 out2.
  assert (Hp2 : Request.path request2 = "/api/track-visit") by congruence.
  assert (Hm2 : Request.method request2 = POST) by congruence.
  rewrite (wsgi_app_track_visit cfg env request1 s Hp Hm).
  rewrite (wsgi_app_track_visit cfg env request2 s Hp2 Hm2).
  rewrite (track_visit_run env request1 (set_session [] s) eq_refl Hb1).
  rewrite (track_visit_run env request2 (set_session [] s) eq_refl Hb2).
  unfold new_row, headers_get. rewrite <- Hip, <- Hh.
  destruct (db_up env); [destruct (Request.remote_addr request1)|];
    destruct s; simpl; repeat split; tauto.
Qed.

Lemma page_url_is_not_persisted_witness :
  wsgi_app Sample.cfg Sample.env_ok Sample.visit Sample.visited
  = wsgi_app Sample.cfg Sample.env_ok Sample.visit_no_body Sample.visited.
Proof.
  exact (proj1 (page_url_is_not_persisted Sample.cfg Sample.env_ok
                  Sample.visit Sample.visit_no_body Sample.visited
                  eq_refl eq_refl
                  (conj eq_refl (conj eq_refl (conj eq_refl
                     (conj eq_refl eq_refl))))
                  (or_intror (ex_intro _ [("pageURL", JStr "/about")] eq_refl))
                  (or_introl eq_refl))).
Defined.



(* ===================================================================== *)
(** ** More about the event store *)
(* ===================================================================== *)

Lemma not_null_app l1 l2 : not_null (l1 ++ l2) = not_null l1 ++ not_null l2.
Proof.
  induction l1 as [|[a|] l1 IH]; simpl; [reflexivity | f_equal; exact IH | exact IH].
Qed.

Lemma period_addresses_snoc t month year v :
  period_addresses (t ++ [v]) month year
  = period_addresses t month year
    ++ (if visit_in_period month year v
        then match ip_address v with Some a => [a] | None => [] end
        else []).
Proof.
  unfold period_addresses. rewrite filter_app, map_app, not_null_app.
  f_equal. simpl. destruct (visit_in_period month year v); [|reflexivity].
  simpl. destruct (ip_address v); reflexivity.
Qed.

(** One more element adds one to the number of distinct elements when it is
    new, and nothing when it is not. *)
Lemma nodup_length_snoc (l : list string) a :
  List.length (nodup string_dec (l ++ [a]))
  = (List.length (nodup string_dec l)
     + if in_dec string_dec a l then 0 else 1)%nat.
Proof.
  induction l as [|x l IH]; simpl.
  - reflexivity.
  - destruct (in_dec string_dec x (l ++ [a])) as [Hin | Hin];
      destruct (in_dec string_dec x l) as [Hx | Hx];
      destruct (string_dec x a) as [-> | Hne]; simpl.
    + rewrite IH. destruct (in_dec string_dec a l); [reflexivity | contradiction].
    + rewrite IH. destruct (in_dec string_dec a l); reflexivity.
    + rewrite IH. destruct (in_dec string_dec a l); [contradiction | lia].
    + exfalso. apply in_app_or in Hin. destruct Hin as [H | [H | []]]; auto.
    + exfalso. apply Hin, in_or_app. left. exact Hx.
    + exfalso. apply Hin, in_or_app. left. exact Hx.
    + exfalso. apply Hin, in_or_app. right. left. reflexivity.
    + rewrite IH. destruct (in_dec string_dec a l); lia.
Qed.

Lemma count_distinct_visitors_snoc t month year v :
  count_distinct_visitors (t ++ [v]) month year
  = count_distinct_visitors t month year + count_gain t month year v.
Proof.
  unfold count_distinct_visitors, count_gain, seen.
  fold (period_addresses (t ++ [v]) month year).
  fold (period_addresses t month year).
  rewrite period_addresses_snoc.
  destruct (visit_in_period month year v).
  - destruct (ip_address v) as [a|].
    + rewrite nodup_length_snoc.
      destruct (in_dec string_dec a (period_addresses t month year)); lia.
    + rewrite app_nil_r. lia.
  - rewrite app_nil_r. lia.
Qed.

Lemma count_gain_range t month year v : 0 <= count_gain t month year v <= 1.
Proof.
  unfold count_gain.
  destruct (visit_in_period month year v); [|lia].
  destruct (ip_address v); [|lia].
  destruct (seen t month year s); lia.
Qed.

(* ===================================================================== *)
(** ** Further properties of the views *)
(* ===================================================================== *)

Lemma new_row_set_session env request p s :
  new_row env request (set_session p s) = new_row env request s.
Proof. destruct s; reflexivity. Qed.

(** What a track-visit request answered 201 has done to the table. *)
Lemma wsgi_app_track_visit_201 cfg env request s :
  Request.path request = "/api/track-visit" ->
  Request.method request = POST ->
  Response.status (fst (wsgi_app cfg env request s)) = 201 ->
  table (snd (wsgi_app cfg env request s)) = table s ++ [new_row env request s]
  /\ reaches_insert request
  /\ db_up env = true
  /\ Request.remote_addr request <> None.
Proof.
  intros Hp Hm. rewrite (wsgi_app_track_visit cfg env request s Hp Hm).
  destruct (reaches_insert_dec request) as [Hb | Hb].
  - rewrite (track_visit_run env request (set_session [] s) eq_refl Hb).
    rewrite new_row_set_session.
    destruct (db_up env); [destruct (Request.remote_addr request)|];
      cbn [conclude fst snd]; intros H; try discriminate H.
    rewrite table_set_session. cbn [table].
    repeat split; try assumption; try reflexivity. discriminate.
  - destruct (track_visit_raises env request (set_session [] s) Hb)
      as [e [-> [-> | ->]]]; intros H; discriminate H.
Qed.

(** X2. A recorded visit is counted at once and once: after a track-visit
    request answered 201 the count of the visit's period (the UTC month and
    year of the handler's reading of the clock) is one more when the address
    had no row in that period and the same when it had one; the count of
    every other period is what it was. *)
Theorem visit_is_counted_once cfg env request s a :
  Request.path request = "/api/track-visit" ->
  Request.method request = POST ->
  Request.remote_addr request = Some a ->
  Response.status (fst (wsgi_app cfg env request s)) = 201 ->
  let current_time := Calendar.utc (clock env (reads s)) in
  forall month year,
    count_distinct_visitors (table (snd (wsgi_app cfg env request s))) month year
    = count_distinct_visitors (table s) month year
      + (if (Calendar.month current_time =? month)
            && (Calendar.year current_time =? year)
            && negb (seen (table s) month year a)
         then 1 else 0).
Proof.
  intros Hp Hm Hip H201 current_time month year.
  destruct (wsgi_app_track_visit_201 cfg env request s Hp Hm H201) as [-> _].
  rewrite count_distinct_visitors_snoc. f_equal.
  unfold count_gain, visit_in_period, new_row.
  cbn [visit_month visit_year ip_address]. fold current_time. rewrite Hip.
  destruct ((Calendar.month current_time =? month)
            && (Calendar.year current_time =? year)); [|reflexivity].
  destruct (seen (table s) month year a); reflexivity.
Qed.

Lemma visit_is_counted_once_witness :
  count_distinct_visitors
    (table (snd (wsgi_app Sample.cfg Sample.env_ok Sample.visit Sample.visited)))
    3 2024 = 2
  /\ count_distinct_visitors
       (table (snd (wsgi_app Sample.cfg Sample.env_ok Sample.visit
                      Sample.visited)))
       2 2024 = 1.
Proof.
  split.
  - exact (visit_is_counted_once Sample.cfg Sample.env_ok Sample.visit
             Sample.visited "203.0.113.7" eq_refl eq_refl eq_refl eq_refl
             3 2024).
  - exact (visit_is_counted_once Sample.cfg Sample.env_ok Sample.visit
             Sample.visited "203.0.113.7" eq_refl eq_refl eq_refl eq_refl
             2 2024).
Defined.

(** X3. Read after write over HTTP: when a track-visit request is answered
    201 and the next request asks for the period of that visit (its
    parameters resolve to the visit's UTC month and year) and is answered
    200, the reported [unique_visitors] is the count before the visit, plus
    one when the address was new in the period, plus 2. *)
Theorem query_after_visit cfg env1 env2 visit query s a :
  Request.path visit = "/api/track-visit" ->
  Request.method visit = POST ->
  Request.remote_addr visit = Some a ->
  Request.path query = "/api/monthly-visitors" ->
  Request.method query = GET ->
  let out1 := wsgi_app cfg env1 visit s in
  let out2 := wsgi_app cfg env2 query (snd out1) in
  let visit_time := Calendar.utc (clock env1 (reads s)) in
  let query_time := Calendar.utc (clock env2 (reads (snd out1))) in
  let month := Calendar.month visit_time in
  let year := Calendar.year visit_time in
  Response.status (fst out1) = 201 ->
  resolves env2 query "month" (Calendar.month query_time) month ->
  resolves env2 query "year" (Calendar.year query_time) year ->
  Response.status (fst out2) = 200 ->
  Response.body (fst out2)
  = Response.Json
      (JObj [("month", JInt month); ("year", JInt year);
             ("unique_visitors",
              JInt (count_distinct_visitors (table s) month year
                    + (if seen (table s) month year a then 0 else 1) + 2))]).
Proof.
  intros Hp Hm Hip Hqp Hqm out1 out2 visit_time query_time month year
         H201 Hmonth Hyear.
  destruct (wsgi_app_track_visit_201 cfg env1 visit s Hp Hm H201) as [Ht _].
  subst out2.
  rewrite (wsgi_app_monthly_visitors cfg env2 query (snd out1) month year
             Hqp Hqm Hmonth Hyear).
  destruct (db_up env2 && in_int64 month && in_int64 year);
    cbn [after_request Response.headers_add Response.status Response.body
         json_response]; [|intros H; discriminate H].
  intros _. subst out1. rewrite Ht, count_distinct_visitors_snoc.
  replace (count_gain (table s) month year (new_row env1 visit s))
    with (if seen (table s) month year a then 0 else 1); [reflexivity|].
  unfold count_gain, visit_in_period, new_row.
  cbn [visit_month visit_year ip_address]. fold visit_time. fold month. fold year.
  rewrite !Z.eqb_refl, Hip. reflexivity.
Qed.

Lemma query_after_visit_witness :
  Response.body
    (fst (wsgi_app Sample.cfg Sample.env_rollover
            (Sample.get "/api/monthly-visitors"
               [("month", "3"); ("year", "2024")])
            (snd (wsgi_app Sample.cfg Sample.env_ok Sample.visit
                    Sample.visited))))
  = Response.Json
      (JObj [("month", JInt 3); ("year", JInt 2024);
             ("unique_visitors", JInt 4)]).
Proof.
  refine (query_after_visit Sample.cfg Sample.env_ok Sample.env_rollover
            Sample.visit
            (Sample.get "/api/monthly-visitors"
               [("month", "3"); ("year", "2024")])
            Sample.visited "203.0.113.7"
            eq_refl eq_refl eq_refl eq_refl eq_refl eq_refl _ _ eq_refl).
  - left. exists "3". split; reflexivity.
  - left. exists "2024". split; reflexivity.
Defined.

(** X4. No request lowers the count of a period and no request raises it by
    more than one. *)
Theorem count_grows_by_at_most_one cfg env request s month year :
  count_distinct_visitors (table s) month year
  <= count_distinct_visitors (table (snd (wsgi_app cfg env request s)))
       month year
  <= count_distinct_visitors (table s) month year + 1.
Proof.
  destruct (wsgi_app_table cfg env request s) as [-> | ->]; [lia|].
  rewrite count_distinct_visitors_snoc.
  pose proof (count_gain_range (table s) month year (new_row env request s)).
  lia.
Qed.

(** X5. The table is append-only: whatever requests are handled, the rows
    that were in the table are still there, unchanged and in their order,
    and the new rows come after them. *)
Theorem table_is_append_only cfg s0 s :
  reachable cfg s0 s -> exists rows, table s = table s0 ++ rows.
Proof.
  induction 1 as [|env request s Hs [rows IH]].
  - exists []. rewrite app_nil_r. reflexivity.
  - destruct (wsgi_app_table cfg env request s) as [-> | ->].
    + exists rows. exact IH.
    + exists (rows ++ [new_row env request s]).
      rewrite IH, app_assoc. reflexivity.
Qed.

Lemma table_is_append_only_witness :
  exists rows,
    table (snd (wsgi_app Sample.cfg Sample.env_ok Sample.visit Sample.visited))
    = table Sample.visited ++ rows.
Proof.
  exact (table_is_append_only Sample.cfg Sample.visited _
           (reachable_request Sample.cfg Sample.visited Sample.env_ok
              Sample.visit Sample.visited
              (reachable_start Sample.cfg Sample.visited))).
Defined.

(** The requests that reach a view. *)
Lemma routed_cases request :
  routed request = false
  \/ (Request.path request = "/api/track-visit" /\ Request.method request = POST)
  \/ (Request.path request = "/api/monthly-visitors"
      /\ (Request.method request = GET \/ Request.method request = HEAD))
  \/ (Request.path request = "/api/notify-click" /\ Request.method request = POST).
Proof.
  unfold routed, url_map. cbn [assoc].
  destruct (String.eqb_spec (Request.path request) "/api/track-visit") as [-> | _];
    [destruct (Request.method request); cbn; tauto|].
  destruct (String.eqb_spec (Request.path request) "/api/monthly-visitors")
    as [-> | _]; [destruct (Request.method request); cbn; tauto|].
  destruct (String.eqb_spec (Request.path request) "/api/notify-click")
    as [-> | _]; [destruct (Request.method request); cbn; tauto|].
  left. reflexivity.
Qed.

(** A request that reaches no view is answered without a change of the
    state: by the 404 page, the 405 page or the empty answer to OPTIONS. *)
Lemma wsgi_app_unrouted cfg env request s :
  routed request = false ->
  snd (wsgi_app cfg env request s) = set_session [] s
  /\ (Response.status (fst (wsgi_app cfg env request s)) = 404
      \/ Response.status (fst (wsgi_app cfg env request s)) = 405
      \/ Response.status (fst (wsgi_app cfg env request s)) = 200
         /\ Response.body (fst (wsgi_app cfg env request s)) = Response.Empty
         /\ Request.method request = OPTIONS).
Proof.
  unfold routed, wsgi_app, full_dispatch_request, dispatch_request.
  destruct (assoc (Request.path request) url_map) as [[methods ep]|].
  - destruct (existsb (Method_eqb (Request.method request)) methods).
    + destruct (Method_eqb (Request.method request) OPTIONS) eqn:Hopt;
        [|discriminate].
      intros _. destruct s; cbn. split; [reflexivity|].
      right. right. destruct (Request.method request); try discriminate Hopt.
      repeat split.
    + intros _. destruct s; cbn. split; [reflexivity|]. right. left. reflexivity.
  - intros _. destruct s; cbn. split; [reflexivity|]. left. reflexivity.
Qed.

Lemma wsgi_app_head_monthly_visitors cfg env request s :
  Request.path request = "/api/monthly-visitors" ->
  Request.method request = HEAD ->
  wsgi_app cfg env request s
  = conclude cfg (get_monthly_visitors request env (set_session [] s)).
Proof.
  intros Hp Hm.
  apply (wsgi_app_view cfg env request s [GET; HEAD; OPTIONS]
           ep_get_monthly_visitors);
    rewrite ?Hp, ?Hm; reflexivity.
Qed.

Lemma track_visit_outbox env request s :
  session s = [] -> outbox (snd (track_visit request env s)) = outbox s.
Proof.
  intros Hs. destruct (reaches_insert_dec request) as [Hb | Hb].
  - rewrite (track_visit_run env request s Hs Hb).
    destruct (db_up env); [destruct (Request.remote_addr request)|]; reflexivity.
  - destruct (track_visit_raises env request s Hb) as [e [-> _]]. reflexivity.
Qed.

Lemma outbox_set_session p s : outbox (set_session p s) = outbox s.
Proof. destruct s; reflexivity. Qed.

(** X6. Only POST /api/track-visit writes rows: a request after which the
    table is another one was a POST to /api/track-visit. *)
Theorem only_track_visit_writes_rows cfg env request s :
  table (snd (wsgi_app cfg env request s)) <> table s ->
  Request.path request = "/api/track-visit" /\ Request.method request = POST.
Proof.
  intros Hneq.
  destruct (routed_cases request)
    as [Hr | [Ht | [[Hp Hm] | [Hp Hm]]]]; [| exact Ht | |]; exfalso; apply Hneq.
  - destruct (wsgi_app_unrouted cfg env request s Hr) as [-> _].
    apply table_set_session.
  - assert (H : wsgi_app cfg env request s
                = conclude cfg (get_monthly_visitors request env (set_session [] s))).
    { destruct Hm as [Hm | Hm];
        [apply wsgi_app_get_monthly_visitors | apply wsgi_app_head_monthly_visitors];
        assumption. }
    rewrite H, conclude_table.
    rewrite (proj1 (get_monthly_visitors_frame request env (set_session [] s))).
    apply table_set_session.
  - rewrite (wsgi_app_notify_click cfg env request s Hp Hm), conclude_table.
    rewrite notify_click_table. apply table_set_session.
Qed.

Lemma only_track_visit_writes_rows_witness :
  Request.path Sample.visit = "/api/track-visit"
  /\ Request.method Sample.visit = POST.
Proof.
  refine (only_track_visit_writes_rows Sample.cfg Sample.env_ok Sample.visit
            initial_state _).
  intros H. discriminate H.
Defined.

(** X7. Only POST /api/notify-click sends mail: a request after which the
    outbox is another one was a POST to /api/notify-click. *)
Theorem only_notify_click_sends_mail cfg env request s :
  outbox (snd (wsgi_app cfg env request s)) <> outbox s ->
  Request.path request = "/api/notify-click" /\ Request.method request = POST.
Proof.
  intros Hneq.
  destruct (routed_cases request)
    as [Hr | [[Hp Hm] | [[Hp Hm] | Hn]]]; [| | | exact Hn]; exfalso; apply Hneq.
  - destruct (wsgi_app_unrouted cfg env request s Hr) as [-> _].
    apply outbox_set_session.
  - rewrite (wsgi_app_track_visit cfg env request s Hp Hm), conclude_outbox.
    rewrite (track_visit_outbox env request (set_session [] s) eq_refl).
    apply outbox_set_session.
  - assert (H : wsgi_app cfg env request s
                = conclude cfg (get_monthly_visitors request env (set_session [] s))).
    { destruct Hm as [Hm | Hm];
        [apply wsgi_app_get_monthly_visitors | apply wsgi_app_head_monthly_visitors];
        assumption. }
    rewrite H, conclude_outbox.
    rewrite (proj2 (get_monthly_visitors_frame request env (set_session [] s))).
    apply outbox_set_session.
Qed.

Lemma only_notify_click_sends_mail_witness :
  Request.path Sample.click = "/api/notify-click"
  /\ Request.method Sample.click = POST.
Proof.
  refine (only_notify_click_sends_mail Sample.cfg Sample.env_ok Sample.click
            initial_state _).
  intros H. discriminate H.
Defined.



(** A request leaves the table as it is, or it is a POST to
    /api/track-visit with an address and appends the row of the visit. *)
Lemma wsgi_app_table_cases cfg env request s :
  table (snd (wsgi_app cfg env request s)) = table s
  \/ (table (snd (wsgi_app cfg env request s))
      = table s ++ [new_row env request s]
      /\ Request.remote_addr request <> None).
Proof.
  destruct (routed_cases request)
    as [Hr | [[Hp Hm] | [[Hp Hm] | [Hp Hm]]]].
  - left. destruct (wsgi_app_unrouted cfg env request s Hr) as [-> _].
    apply table_set_session.
  - rewrite (wsgi_app_track_visit cfg env request s Hp Hm), conclude_table.
    destruct (reaches_insert_dec request) as [Hb | Hb].
    + rewrite (track_visit_run env request (set_session [] s) eq_refl Hb).
      rewrite new_row_set_session.
      destruct (db_up env); [destruct (Request.remote_addr request) eqn:Hip|];
        cbn [snd table]; rewrite table_set_session; [right | left | left];
        try reflexivity.
      split; [reflexivity | discriminate].
    + left. destruct (track_visit_raises env request (set_session [] s) Hb)
        as [e [-> _]]. apply table_set_session.
  - left.
    assert (H : wsgi_app cfg env request s
                = conclude cfg (get_monthly_visitors request env (set_session [] s))).
    { destruct Hm as [Hm | Hm];
        [apply wsgi_app_get_monthly_visitors | apply wsgi_app_head_monthly_visitors];
        assumption. }
    rewrite H, conclude_table.
    rewrite (proj1 (get_monthly_visitors_frame request env (set_session [] s))).
    apply table_set_session.
  - left. rewrite (wsgi_app_notify_click cfg env request s Hp Hm), conclude_table.
    rewrite notify_click_table. apply table_set_session.
Qed.

Lemma keys_in_sequence_snoc t v :
  keys_in_sequence t ->
  id v = Some (Z.of_nat (S (List.length t))) ->
  keys_in_sequence (t ++ [v]).
Proof.
  unfold keys_in_sequence. intros Ht Hv.
  rewrite map_app, length_app. cbn [List.length map].
  rewrite Nat.add_1_r, seq_S, map_app, Ht, Hv. reflexivity.
Qed.

Lemma keys_in_sequence_max_id t :
  keys_in_sequence t -> max_id t = Z.of_nat (List.length t).
Proof.
  induction t as [|v t IH] using rev_ind; [reflexivity|].
  unfold keys_in_sequence. rewrite map_app, length_app. cbn [List.length map].
  rewrite Nat.add_1_r, seq_S, map_app. cbn [map]. intros H.
  apply app_inj_tail in H. destruct H as [Ht Hv].
  rewrite max_id_app, (IH Ht). unfold id_of. rewrite Hv. lia.
Qed.

Lemma keys_in_sequence_NoDup t : keys_in_sequence t -> NoDup (map id t).
Proof.
  unfold keys_in_sequence. intros ->.
  apply Finite.Injective_map_NoDup; [|apply seq_NoDup].
  intros a b H. injection H as H. lia.
Qed.

(** X9. The rows the application has written since the database was
    created have the keys 1, 2, 3, ... in the order of their insertion, so
    no two rows share a key; each has an address, a timestamp and a month
    in 1..12. *)
Theorem written_rows_are_well_formed cfg s :
  reachable cfg initial_state s ->
  keys_in_sequence (table s)
  /\ NoDup (map id (table s))
  /\ Forall row_complete (table s).
Proof.
  intros Hreach.
  assert (H : keys_in_sequence (table s) /\ Forall row_complete (table s)).
  { induction Hreach as [|env request s Hs [IHk IHr]].
    - split; [reflexivity | constructor].
    - destruct (wsgi_app_table_cases cfg env request s) as [-> | [-> Hip]];
        [split; assumption|].
      split.
      + apply keys_in_sequence_snoc; [exact IHk|].
        unfold new_row, next_id. cbn [id].
        rewrite (keys_in_sequence_max_id _ IHk). f_equal. lia.
      + apply Forall_app. split; [exact IHr|].
        constructor; [|constructor].
        unfold row_complete. split; [exact Hip|].
        split; [discriminate | apply new_row_month]. }
  destruct H as [Hk Hr].
  split; [exact Hk|]. split; [apply keys_in_sequence_NoDup; exact Hk | exact Hr].
Qed.

Lemma written_rows_are_well_formed_witness :
  NoDup
    (map id
       (table (snd (wsgi_app Sample.cfg Sample.env_ok Sample.visit
                      (snd (wsgi_app Sample.cfg Sample.env_ok Sample.visit
                              initial_state)))))).
Proof.
  exact (proj1 (proj2 (written_rows_are_well_formed Sample.cfg _
           (reachable_request Sample.cfg initial_state Sample.env_ok
              Sample.visit _
              (reachable_request Sample.cfg initial_state Sample.env_ok
                 Sample.visit initial_state
                 (reachable_start Sample.cfg initial_state)))))).
Defined.










(** [notify_click] when the body it reads is an object. *)
Lemma notify_click_run cfg request env s d :
  py_or (get_json_silent request) (JObj []) = JObj d ->
  notify_click cfg request env s
  = let kind := dict_get d "link_kind" (JStr "unknown link") in
    let page := dict_get d "page" (JStr "unknown page") in
    let ua := match headers_get request "User-Agent" with
              | Some u => u
              | None => "unknown UA"
              end in
    if mail_up env then
      match refused (click_message cfg kind page ua) with
      | Some e =>
          (Ret RvNone,
           set_logger
             (logger s
              ++ [(ERROR, [Lit "Error sending visitor email via Gmail: "; Err e]);
                  (ERROR, mail_config_line cfg)]) s)
      | None =>
          (Ret RvNone,
           set_outbox (outbox s ++ [click_message cfg kind page ua]) s)
      end
    else (Ret RvNone,
          set_logger (logger s ++ delivery_failure_log cfg) s).
Proof.
  intros Hd. unfold notify_click. rewrite Hd. py_unfold. cbv zeta.
  fold (click_message cfg (dict_get d "link_kind" (JStr "unknown link"))
          (dict_get d "page" (JStr "unknown page"))
          (match headers_get request "User-Agent" with
           | Some u => u
           | None => "unknown UA"
           end)).
  destruct (mail_up env); [destruct (refused _)|]; destruct s; cbn;
    try reflexivity; rewrite <- app_assoc; reflexivity.
Qed.

(** A body that is absent, not declared as JSON, not JSON, or one of the
    false JSON values is read as the empty object. *)
Lemma falsy_body_is_empty_object request :
  truthy (get_json_silent request) = false ->
  py_or (get_json_silent request) (JObj []) = JObj [].
Proof. unfold py_or. intros ->. reflexivity. Qed.



(** X15. A POST /api/notify-click request whose body is absent, is not
    declared as JSON, is not JSON, or is a false JSON value (null, false, 0,
    the empty string, list or object) is handled as the request with the
    body [{}]: same response, same state. *)
Theorem notify_click_without_body cfg env request s :
  Request.path request = "/api/notify-click" ->
  Request.method request = POST ->
  truthy (get_json_silent request) = false ->
  wsgi_app cfg env request s
  = wsgi_app cfg env
      (Request.mk POST "/api/notify-click" (Request.remote_addr request)
         (Request.headers request) (Request.args request) true
         (Some (JObj [])))
      s.
Proof.
  intros Hp Hm Hf.
  set (empty := Request.mk POST "/api/notify-click" (Request.remote_addr request)
                  (Request.headers request) (Request.args request) true
                  (Some (JObj []))).
  rewrite (wsgi_app_notify_click cfg env request s Hp Hm).
  rewrite (wsgi_app_notify_click cfg env empty s eq_refl eq_refl).
  rewrite (notify_click_run cfg request env (set_session [] s) []
             (falsy_body_is_empty_object request Hf)).
  rewrite (notify_click_run cfg empty env (set_session [] s) [] eq_refl).
  reflexivity.
Qed.

Lemma notify_click_without_body_witness :
  wsgi_app Sample.cfg Sample.env_ok (Sample.post "/api/notify-click" None)
    initial_state
  = wsgi_app Sample.cfg Sample.env_ok Sample.click initial_state.
Proof.
  exact (notify_click_without_body Sample.cfg Sample.env_ok
           (Sample.post "/api/notify-click" None) initial_state
           eq_refl eq_refl eq_refl).
Defined.





(* ===================================================================== *)
(** ** The notification helper *)
(* ===================================================================== *)

Lemma send_visitor_notification_email_run cfg ip ua page_url env s :
  send_visitor_notification_email cfg ip ua page_url env s
  = if mail_configured cfg then
      let now := Calendar.utc (clock env (reads s)) in
      let msg :=
        mkMessage [Lit "🎉 New Website Visitor Alert (via Gmail)!"]
          [ADMIN_EMAIL cfg]
          [Lit "A new visitor just landed on your site! Details: - IP Address: ";
           Val (of_opt_str ip);
           Lit " - User Agent: "; Val (py_or (of_opt_str ua) (JStr "N/A"));
           Lit " - Page URL: "; Val (py_or page_url (JStr "N/A"));
           Lit " - Timestamp: "; Stamp now;
           Lit " Notification sent via Flask app using Gmail."] in
      if mail_up env then
        (Ret tt,
         mkState (table s) (session s) (outbox s ++ [msg])
           (logger s
            ++ [(INFO, [Lit "Visitor notification email sent to ";
                        Val (of_opt_str (ADMIN_EMAIL cfg)); Lit " via Gmail."])])
           (S (reads s)))
      else
        (Ret tt,
         mkState (table s) (session s) (outbox s)
           (logger s ++ delivery_failure_log cfg) (S (reads s)))
    else
      (Ret tt,
       set_logger
         (logger s
          ++ [(WARNING,
               [Lit "Admin email or mail username not configured. Skipping email."])])
         s).
Proof.
  unfold send_visitor_notification_email, mail_configured.
  destruct (ADMIN_EMAIL cfg) as [admin|]; cbn [of_opt_str truthy];
    [|reflexivity].
  destruct (negb (admin =? "")%string);
    destruct (truthy (of_opt_str (MAIL_USERNAME cfg))); cbn [negb orb andb];
    try reflexivity.
  py_unfold. cbv zeta. destruct (mail_up env); destruct s; cbn; [reflexivity|].
  rewrite <- app_assoc. reflexivity.
Qed.

(** X18. [send_visitor_notification_email] never raises, whatever the
    settings and the transport do, and it touches neither the table nor the
    session. *)
Theorem send_visitor_notification_email_never_raises
    cfg ip ua page_url env s :
  let out := send_visitor_notification_email cfg ip ua page_url env s in
  fst out = Ret tt
  /\ table (snd out) = table s
  /\ session (snd out) = session s.
Proof.
  intros out. subst out. rewrite send_visitor_notification_email_run. cbv zeta.
  destruct (mail_configured cfg); [destruct (mail_up env)|]; destruct s;
    repeat split; reflexivity.
Qed.

(** X19. When [ADMIN_EMAIL] or [MAIL_USERNAME] is not set, or is set to the
    empty string, [send_visitor_notification_email] only logs one warning:
    nothing is handed to the transport and the clock is not read. *)
Theorem send_visitor_notification_email_unconfigured
    cfg ip ua page_url env s :
  mail_configured cfg = false ->
  send_visitor_notification_email cfg ip ua page_url env s
  = (Ret tt,
     mkState (table s) (session s) (outbox s)
       (logger s
        ++ [(WARNING,
             [Lit "Admin email or mail username not configured. Skipping email."])])
       (reads s)).
Proof.
  intros H. rewrite send_visitor_notification_email_run, H.
  destruct s; reflexivity.
Qed.

Lemma send_visitor_notification_email_unconfigured_witness :
  outbox
    (snd (send_visitor_notification_email
            (mkConfig (Some "") None "smtp.gmail.com" 587
               (Some "owner@example.org"))
            (Some "203.0.113.7") None JNull Sample.env_ok initial_state))
  = [].
Proof.
  exact (f_equal (fun out => outbox (snd out))
           (send_visitor_notification_email_unconfigured
              (mkConfig (Some "") None "smtp.gmail.com" 587
                 (Some "owner@example.org"))
              (Some "203.0.113.7") None JNull Sample.env_ok initial_state
              eq_refl)).
Defined.



(** X21. In the message of [send_visitor_notification_email] a user agent
    or a page URL that is missing and one that is the empty string are
    written alike, as N/A: the helper does the same in both cases. *)
Theorem send_visitor_notification_email_placeholders cfg ip env s :
  send_visitor_notification_email cfg ip None JNull env s
  = send_visitor_notification_email cfg ip (Some "") (JStr "") env s
  /\ send_visitor_notification_email cfg ip None JNull env s
     = send_visitor_notification_email cfg ip (Some "N/A") (JStr "N/A") env s.
Proof.
  rewrite !send_visitor_notification_email_run. split; reflexivity.
Qed.

(* ===================================================================== *)
(** ** The settings *)
(* ===================================================================== *)

(** X23. The two flags of the mail transport are read without regard to
    case and only the word true switches one on: [MAIL_USE_TLS] is on when
    the variable is not set or is true in any case, [MAIL_USE_SSL] is on
    only when the variable is set to true in any case; any other text (1,
    yes, on) switches the flag off. *)
Theorem settings_mail_flags int e c :
  Settings.load int e = Some c ->
  (Settings.MAIL_USE_TLS c = true <->
   assoc "MAIL_USE_TLS" e = None
   \/ exists v, assoc "MAIL_USE_TLS" e = Some v /\ lower_str v = "true")
  /\ (Settings.MAIL_USE_SSL c = true <->
      exists v, assoc "MAIL_USE_SSL" e = Some v /\ lower_str v = "true").
Proof.
  unfold Settings.load. destruct (Settings.mail_port int e); [|discriminate].
  intros H. injection H as <-. cbn [Settings.MAIL_USE_TLS Settings.MAIL_USE_SSL].
  unfold Settings.get_default, Settings.is_true.
  split.
  - destruct (assoc "MAIL_USE_TLS" e) as [v|].
    + rewrite String.eqb_eq. split.
      * intros H. right. exists v. split; [reflexivity | exact H].
      * intros [H | (v' & Hv & H)]; [discriminate H|]. injection Hv as <-. exact H.
    + split; [intros _; left; reflexivity | reflexivity].
  - destruct (assoc "MAIL_USE_SSL" e) as [v|].
    + rewrite String.eqb_eq. split.
      * intros H. exists v. split; [reflexivity | exact H].
      * intros (v' & Hv & H). injection Hv as <-. exact H.
    + split; [intros H; discriminate H | intros (v & H & _); discriminate H].
Qed.

Lemma settings_mail_flags_witness :
  Settings.MAIL_USE_TLS
    (Settings.mk "k" "sqlite:///instance/visitors.db" false "smtp.gmail.com" 587
       true true None None None false None) = true.
Proof.
  refine (proj2 (proj1 (settings_mail_flags ascii_int
            [("SECRET_KEY", "k"); ("MAIL_USE_SSL", "TRUE")] _ eq_refl)) _).
  left. reflexivity.
Defined.

(** X24. From the environment to the helper: when the configuration block
    loads and [ADMIN_EMAIL] or [MAIL_USERNAME] is not set,
    [send_visitor_notification_email] hands nothing to the transport. *)
Theorem unset_mail_settings_send_nothing int e c ip ua page_url env s :
  Settings.load int e = Some c ->
  assoc "ADMIN_EMAIL" e = None \/ assoc "MAIL_USERNAME" e = None ->
  let out :=
    send_visitor_notification_email (Settings.config e c) ip ua page_url env s in
  outbox (snd out) = outbox s /\ reads (snd out) = reads s.
Proof.
  intros H Hunset out. subst out. unfold Settings.load in H.
  destruct (Settings.mail_port int e); [|discriminate H]. injection H as <-.
  rewrite send_visitor_notification_email_run.
  replace (mail_configured _) with false.
  - destruct s; split; reflexivity.
  - unfold mail_configured, Settings.config, Settings.get.
    cbn [ADMIN_EMAIL MAIL_USERNAME Settings.ADMIN_EMAIL Settings.MAIL_USERNAME].
    destruct Hunset as [-> | ->]; cbn [of_opt_str truthy andb];
      [reflexivity | rewrite andb_false_r; reflexivity].
Qed.

Lemma unset_mail_settings_send_nothing_witness :
  outbox
    (snd (send_visitor_notification_email
            (mkConfig None None "smtp.gmail.com" 587 (Some "owner@example.org"))
            (Some "203.0.113.7") None JNull Sample.env_ok initial_state))
  = [].
Proof.
  exact (proj1 (unset_mail_settings_send_nothing ascii_int
                  [("MAIL_USERNAME", "owner@example.org")] _
                  (Some "203.0.113.7") None JNull Sample.env_ok initial_state
                  eq_refl (or_introl eq_refl))).
Defined.
